(** * PySkinDose: beam geometry and surface hit testing

    A shallow embedding of [src/pyskindose/beam_class.py] (class [Beam]:
    [__init__] and [check_hit]) together with the numpy operations it
    relies on.

    Numbers.  The source computes with float64 numpy arrays.  The
    embedding reads every float as a real number ([R]), so rounding,
    infinities and NaN are outside the model.  The one place where the
    two differ on finite inputs is a division by a zero norm: numpy
    yields NaN (with a warning, no exception), [Rdiv] yields [0].
    Statements that depend on that division carry the hypothesis that
    the norm is non-zero.

    Arrays.  A [k x 3] float array is a list of rows ([vec3]); its
    transpose, a [3 x k] array, is a triple of columns ([cols]).  A
    [3 x 3] matrix is a triple of rows ([mat3]).

    Exceptions.  Python exceptions are values of [exn]; a fallible
    computation returns a [result]. *)

From Stdlib Require Import Reals Lra Lia ZArith Bool String List.
Import ListNotations.
Local Open Scope R_scope.

(** ** Exceptions *)

Inductive exn : Type :=
| KeyError
| IndexError
| ValueError
| TypeError
| AttributeError.

Inductive result (A : Type) : Type :=
| Ok (a : A)
| Raise (e : exn).

Arguments Ok {A} a.
Arguments Raise {A} e.

Definition bind {A B : Type} (m : result A) (k : A -> result B) : result B :=
  match m with
  | Ok a => k a
  | Raise e => Raise e
  end.

Notation "x <- m ;; k" := (bind m (fun x => k))
  (at level 61, m at next level, right associativity).

Fixpoint mapM {A B : Type} (f : A -> result B) (l : list A) : result (list B) :=
  match l with
  | [] => Ok []
  | a :: l' => b <- f a ;; bs <- mapM f l' ;; Ok (b :: bs)
  end.

(** ** Vectors, matrices and the numpy operations used by the source *)

Definition vec3 : Type := (R * R * R)%type.
Definition mat3 : Type := (vec3 * vec3 * vec3)%type.
Definition cols : Type := (list R * list R * list R)%type.

(** [x <= y] on floats, as a boolean. *)
Definition Rleb (x y : R) : bool := if Rle_dec x y then true else false.

Module np.

Definition deg2rad (x : R) : R := x * (PI / 180).

(** [a - b] on two rows. *)
Definition sub (a b : vec3) : vec3 :=
  let '(a1, a2, a3) := a in
  let '(b1, b2, b3) := b in
  (a1 - b1, a2 - b2, a3 - b3).

(** [np.dot] on two rows. *)
Definition dot (a b : vec3) : R :=
  let '(a1, a2, a3) := a in
  let '(b1, b2, b3) := b in
  a1 * b1 + a2 * b2 + a3 * b3.

(** [np.cross] on two rows. *)
Definition cross (a b : vec3) : vec3 :=
  let '(a1, a2, a3) := a in
  let '(b1, b2, b3) := b in
  (a2 * b3 - a3 * b2, a3 * b1 - a1 * b3, a1 * b2 - a2 * b1).

(** [np.linalg.norm] of one row. *)
Definition norm (a : vec3) : R :=
  let '(a1, a2, a3) := a in sqrt (a1 * a1 + a2 * a2 + a3 * a3).

(** [np.linalg.norm(a, axis=1)]. *)
Definition norm_axis1 (a : list vec3) : list R := map norm a.

(** [M.T] of a [3 x 3] matrix. *)
Definition T3 (M : mat3) : mat3 :=
  let '((a11, a12, a13), (a21, a22, a23), (a31, a32, a33)) := M in
  ((a11, a21, a31), (a12, a22, a32), (a13, a23, a33)).

(** [np.matmul] of two [3 x 3] matrices. *)
Definition matmul3 (A B : mat3) : mat3 :=
  let '(r1, r2, r3) := A in
  let '(c1, c2, c3) := T3 B in
  ((dot r1 c1, dot r1 c2, dot r1 c3),
   (dot r2 c1, dot r2 c2, dot r2 c3),
   (dot r3 c1, dot r3 c2, dot r3 c3)).

(** A matrix applied to one column vector. *)
Definition matvec (M : mat3) (p : vec3) : vec3 :=
  let '(r1, r2, r3) := M in (dot r1 p, dot r2 p, dot r3 p).

(** [a.T] of a [k x 3] array: the three columns. *)
Definition T (a : list vec3) : cols :=
  (map (fun p => fst (fst p)) a, map (fun p => snd (fst p)) a,
   map (fun p => snd p) a).

Fixpoint zip3 (xs ys zs : list R) : list vec3 :=
  match xs, ys, zs with
  | x :: xs', y :: ys', z :: zs' => (x, y, z) :: zip3 xs' ys' zs'
  | _, _, _ => []
  end.

(** [c.T] of a [3 x k] array: back to a list of rows. *)
Definition T' (c : cols) : list vec3 :=
  let '(xs, ys, zs) := c in zip3 xs ys zs.

Fixpoint lincomb (a b c : R) (xs ys zs : list R) : list R :=
  match xs, ys, zs with
  | x :: xs', y :: ys', z :: zs' =>
      (a * x + b * y + c * z) :: lincomb a b c xs' ys' zs'
  | _, _, _ => []
  end.

(** [np.matmul] of a [3 x 3] matrix and a [3 x k] array. *)
Definition matmul (M : mat3) (c : cols) : cols :=
  let '((a11, a12, a13), (a21, a22, a23), (a31, a32, a33)) := M in
  let '(xs, ys, zs) := c in
  (lincomb a11 a12 a13 xs ys zs,
   lincomb a21 a22 a23 xs ys zs,
   lincomb a31 a32 a33 xs ys zs).

Fixpoint divide (xs ns : list R) : list R :=
  match xs, ns with
  | x :: xs', n :: ns' => (x / n) :: divide xs' ns'
  | _, _ => []
  end.

(** [c / ns] where [c] is [3 x k] and [ns] has length [k]: the divisor is
    broadcast along the rows of [c]. *)
Definition divide_bcast (c : cols) (ns : list R) : cols :=
  let '(xs, ys, zs) := c in (divide xs ns, divide ys ns, divide zs ns).

(** [a[:, 0] *= s], [a[:, 1] *= s], [a[:, 2] *= s]. *)
Definition imul_col0 (a : list vec3) (s : R) : list vec3 :=
  map (fun '(x, y, z) => (x * s, y, z)) a.
Definition imul_col1 (a : list vec3) (s : R) : list vec3 :=
  map (fun '(x, y, z) => (x, y * s, z)) a.
Definition imul_col2 (a : list vec3) (s : R) : list vec3 :=
  map (fun '(x, y, z) => (x, y, z * s)) a.

(** [a[i]] / [a[i, :]]: a row, or [IndexError]. *)
Definition getrow {A : Type} (a : list A) (i : nat) : result A :=
  match nth_error a i with
  | Some x => Ok x
  | None => Raise IndexError
  end.

(** [np.column_stack] of three equally long integer sequences. *)
Fixpoint column_stack (a b c : list Z) : list (Z * Z * Z) :=
  match a, b, c with
  | x :: a', y :: b', z :: c' => (x, y, z) :: column_stack a' b' c'
  | _, _, _ => []
  end.

(** [a[mask]] with a boolean mask: the rows where the mask is [True];
    [IndexError] when the mask length differs from the number of rows. *)
Fixpoint select {A : Type} (a : list A) (mask : list bool) : list A :=
  match a, mask with
  | x :: a', b :: mask' => if b then x :: select a' mask' else select a' mask'
  | _, _ => []
  end.

Definition getmask {A : Type} (a : list A) (mask : list bool) : result (list A) :=
  if Nat.eqb (List.length a) (List.length mask) then Ok (select a mask)
  else Raise IndexError.

(** [np.where(mask)]: the positions of the [True] entries, ascending. *)
Fixpoint where_from (i : nat) (mask : list bool) : list nat :=
  match mask with
  | [] => []
  | b :: mask' =>
      if b then i :: where_from (S i) mask' else where_from (S i) mask'
  end.

Definition where_ (mask : list bool) : list nat := where_from 0 mask.

(** [a[i] = x] for an in-range position. *)
Fixpoint setitem {A : Type} (a : list A) (i : nat) (x : A) : list A :=
  match a, i with
  | [], _ => []
  | _ :: a', O => x :: a'
  | y :: a', S i' => y :: setitem a' i' x
  end.

Fixpoint setitems {A : Type} (a : list A) (idx : list nat) (vals : list A)
  : list A :=
  match idx, vals with
  | i :: idx', x :: vals' => setitems (setitem a i x) idx' vals'
  | _, _ => a
  end.

(** [a[idx] = vals] with an index array [idx] and a sequence [vals]: a
    single value is broadcast to every position, otherwise the lengths
    must agree ([ValueError]). *)
Definition setindex {A : Type} (a : list A) (idx : list nat) (vals : list A)
  : result (list A) :=
  match vals with
  | [x] => Ok (setitems a idx (repeat x (List.length idx)))
  | _ =>
      if Nat.eqb (List.length idx) (List.length vals)
      then Ok (setitems a idx vals)
      else Raise ValueError
  end.

(** [np.dot(v, N.T)] for a [k x 3] array [v] and a [j x 3] array [N]: the
    [k x j] array of all row-by-row dot products. *)
Definition dot_T (v N : list vec3) : list (list R) :=
  map (fun vi => map (fun nk => dot vi nk) N) v.

(** [d <= 0], elementwise on a two-dimensional array. *)
Definition le0 (d : list (list R)) : list (list bool) :=
  map (map (fun x => Rleb x 0)) d.

(** [b.all(axis=1)]. *)
Definition all_axis1 (b : list (list bool)) : list bool :=
  map (forallb (fun x => x)) b.

End np.

(** ** The normalised RDSR table ([data_norm])

    A pandas [DataFrame] with one row per irradiation event and a default
    integer index; only the columns read by [Beam] are kept.  Angles are
    in degrees, lengths in centimetres. *)

Record EventRow : Type := mkEventRow {
  Ap1 : R;      (* positioner primary angle *)
  Ap2 : R;      (* positioner secondary angle *)
  Ap3 : R;      (* detector rotation angle *)
  DSI : R;      (* source to isocenter distance *)
  FS_long : R;  (* longitudinal collimation *)
  FS_lat : R;   (* lateral collimation *)
  DID : R;      (* source to detector distance *)
  DSL : R       (* detector side length *)
}.

Definition DataFrame : Type := list EventRow.

(** [data_norm.C[event]]: label lookup in column [C]; a label that is not in
    the index (negative or past the last row) raises [KeyError]. *)
Definition loc_ (C : EventRow -> R) (data_norm : DataFrame) (event : Z)
  : result R :=
  if (event <? 0)%Z then Raise KeyError
  else match nth_error data_norm (Z.to_nat event) with
       | Some row => Ok (C row)
       | None => Raise KeyError
       end.

(** ** class Phantom *)

Module Phantom.

(** Modelled from the spec: class [Phantom] ([phantom_class.py]) is imported
    by [beam_class.py] but is not among the sources; the record keeps the
    attributes [check_hit] reads.  [r] holds the skin cell positions, [n] the
    outward normals of the skin cells (read for volumetric phantoms only),
    [phantom_model] the kind tag. *)
Record t : Type := mk {
  r : list vec3;
  n : list vec3;
  phantom_model : string
}.

End Phantom.

(** ** class Beam *)

Module Beam.

Record t : Type := mk {
  r : list vec3;
  ijk : list (Z * Z * Z);
  N : list vec3;
  det_r : list vec3;
  det_ijk : list (Z * Z * Z)
}.

Definition R1 (ap1 : R) : mat3 :=
  ((cos ap1, sin ap1, 0),
   (- sin ap1, cos ap1, 0),
   (0, 0, 1)).

Definition R2 (ap2 : R) : mat3 :=
  ((1, 0, 0),
   (0, cos ap2, sin ap2),
   (0, - sin ap2, cos ap2)).

Definition R3 (ap3 : R) : mat3 :=
  ((cos ap3, 0, - sin ap3),
   (0, 1, 0),
   (sin ap3, 0, cos ap3)).

(** The three angles in radians: zero when [plot_setup], otherwise read
    from the event's row. *)
Definition angles (data_norm : DataFrame) (event : Z) (plot_setup : bool)
  : result (R * R * R) :=
  if plot_setup then Ok (0, 0, 0)
  else
    a1 <- loc_ Ap1 data_norm event ;;
    a2 <- loc_ Ap2 data_norm event ;;
    a3 <- loc_ Ap3 data_norm event ;;
    Ok (np.deg2rad a1, np.deg2rad a2, np.deg2rad a3).

(** Unit vectors from the X-ray source to the beam vertices:
    [((r[1:] - r[0, :]).T / np.linalg.norm(r[1:] - r[0, :], axis=1)).T]. *)
Definition unit_vectors (r : list vec3) : result (list vec3) :=
  r0 <- np.getrow r 0 ;;
  let d := map (fun p => np.sub p r0) (tl r) in
  Ok (np.T' (np.divide_bcast (np.T d) (np.norm_axis1 d))).

(** The four normal vectors to the faces of the beam. *)
Definition face_normals (v : list vec3) : result (list vec3) :=
  v0 <- np.getrow v 0 ;;
  v1 <- np.getrow v 1 ;;
  n0 <- Ok (np.cross v0 v1) ;;
  v1 <- np.getrow v 1 ;;
  v2 <- np.getrow v 2 ;;
  n1 <- Ok (np.cross v1 v2) ;;
  v2 <- np.getrow v 2 ;;
  v3 <- np.getrow v 3 ;;
  n2 <- Ok (np.cross v2 v3) ;;
  v3 <- np.getrow v 3 ;;
  v0 <- np.getrow v 0 ;;
  n3 <- Ok (np.cross v3 v0) ;;
  Ok [n0; n1; n2; n3].

(** [Beam.__init__(self, data_norm, event, plot_setup)]; the result is the
    initialised object. *)
Definition __init__ (data_norm : DataFrame) (event : Z) (plot_setup : bool)
  : result t :=
  ap <- angles data_norm event plot_setup ;;
  let '(ap1, ap2, ap3) := ap in
  let R1 := R1 ap1 in
  let R2 := R2 ap2 in
  let R3 := R3 ap3 in
  (* Locate X-ray source *)
  dsi <- loc_ DSI data_norm event ;;
  let source := (0, dsi, 0) in
  (* Beam-detector interception points for a beam of side length 1 *)
  let r := [(0.5, -1.0, 0.5);
            (0.5, -1.0, -0.5);
            (-0.5, -1.0, -0.5);
            (-0.5, -1.0, 0.5)] in
  fs_long <- loc_ FS_long data_norm event ;;
  let r := np.imul_col0 r fs_long in
  did <- loc_ DID data_norm event ;;
  let r := np.imul_col1 r did in
  fs_lat <- loc_ FS_lat data_norm event ;;
  let r := np.imul_col2 r fs_lat in
  let r := source :: r in
  (* Rotate beam about ap1, ap2 and ap3 *)
  let r := np.T' (np.matmul (np.T3 (np.matmul3 R2 R1))
                            (np.matmul (np.T3 R3) (np.T r))) in
  let self_r := r in
  let self_ijk := np.column_stack [0; 0; 0; 0; 1; 1]%Z
                                  [1; 1; 3; 3; 2; 3]%Z
                                  [2; 4; 2; 4; 3; 4]%Z in
  v <- unit_vectors self_r ;;
  self_N <- face_normals v ;;
  (* Detector corners for side length 1 *)
  let det_r := [(0.5, -1.0, 0.5);
                (0.5, -1.0, -0.5);
                (-0.5, -1.0, -0.5);
                (-0.5, -1.0, 0.5);
                (0.5, -1.2, 0.5);
                (0.5, -1.2, -0.5);
                (-0.5, -1.2, -0.5);
                (-0.5, -1.2, 0.5)] in
  detector_width <- loc_ DSL data_norm 0 ;;
  let det_r := np.imul_col0 det_r detector_width in
  let det_r := np.imul_col2 det_r detector_width in
  did <- loc_ DID data_norm event ;;
  let det_r := np.imul_col1 det_r did in
  (* Rotate detector about ap1, ap2 and ap3 (the source comment; R3 is not applied) *)
  let det_r := np.T' (np.matmul (np.T3 (np.matmul3 R2 R1)) (np.T det_r)) in
  let self_det_r := det_r in
  let self_det_ijk := np.column_stack [0; 0; 4; 4; 0; 1; 0; 3; 3; 7; 1; 1]%Z
                                      [1; 2; 5; 6; 1; 5; 3; 7; 2; 2; 2; 6]%Z
                                      [2; 3; 6; 7; 4; 4; 4; 4; 7; 6; 6; 5]%Z in
  Ok (mk self_r self_ijk self_N self_det_r self_det_ijk).

(** The comprehension
    [[np.dot(temp1[i], temp2[i]) <= 0 for i in range(len(temp1))]]. *)
Definition bool_entrance (temp1 temp2 : list vec3) : result (list bool) :=
  mapM (fun i =>
          a <- np.getrow temp1 i ;;
          b <- np.getrow temp2 i ;;
          Ok (Rleb (np.dot a b) 0))
       (seq 0 (List.length temp1)).

(** [Beam.check_hit(self, patient)]. *)
Definition check_hit (self : t) (patient : Phantom.t) : result (list bool) :=
  (* Vectors from the X-ray source to each phantom skin cell *)
  r0 <- np.getrow (r self) 0 ;;
  let v := map (fun p => np.sub p r0) (Phantom.r patient) in
  (* Which skin cells lie within the beam *)
  let hits := np.all_axis1 (np.le0 (np.dot_T v (N self))) in
  (* If the phantom is 3D, remove exit path skin cells *)
  if negb (String.eqb (Phantom.phantom_model patient) "plane") then
    temp1 <- np.getmask v hits ;;
    temp2 <- np.getmask (Phantom.n patient) hits ;;
    be <- bool_entrance temp1 temp2 ;;
    hits <- np.setindex hits (np.where_ hits) be ;;
    Ok hits
  else
    Ok hits.

End Beam.

(** ** Objects, references and in-place updates

    [check_hit] receives two objects and works on numpy arrays, some of
    which it updates in place.  To speak about what a call leaves
    untouched, the method is modelled a second time over a store: arrays
    and class instances are objects in the store, attributes hold
    references, every array expression bound to a name allocates a fresh
    array, and an indexed assignment overwrites the array it is applied
    to. *)

Module Store.

Definition ref : Type := nat.

Inductive object : Type :=
| FloatArray (a : list vec3)
| BoolArray (a : list bool)
| IntArray (a : list (Z * Z * Z))
| BeamObject (r ijk N det_r det_ijk : ref)
| PhantomObject (r n : ref) (phantom_model : string).

Definition store : Type := list object.

(** Computations that read and write the store and may raise. *)
Definition M (A : Type) : Type := store -> result A * store.

Definition ret {A : Type} (a : A) : M A := fun s => (Ok a, s).

Definition raise {A : Type} (e : exn) : M A := fun s => (Raise e, s).

Definition lift {A : Type} (x : result A) : M A := fun s => (x, s).

Definition bindM {A B : Type} (m : M A) (k : A -> M B) : M B :=
  fun s =>
    match m s with
    | (Ok a, s') => k a s'
    | (Raise e, s') => (Raise e, s')
    end.

Notation "x <~ m ;; k" := (bindM m (fun x => k))
  (at level 61, m at next level, right associativity).

(** A new object, at a reference that was not in use. *)
Definition new (o : object) : M ref :=
  fun s => (Ok (List.length s), s ++ [o]).

Definition load (l : ref) : M object :=
  fun s =>
    match nth_error s l with
    | Some o => (Ok o, s)
    | None => (Raise TypeError, s)
    end.

(** Overwrite the object at [l]. *)
Definition put (l : ref) (o : object) : M unit :=
  fun s => (Ok tt, np.setitem s l o).

Definition float_array (l : ref) : M (list vec3) :=
  o <~ load l ;;
  match o with
  | FloatArray a => ret a
  | _ => raise TypeError
  end.

Definition bool_array (l : ref) : M (list bool) :=
  o <~ load l ;;
  match o with
  | BoolArray a => ret a
  | _ => raise TypeError
  end.

(** Attribute reads: [self.r], [self.N], [patient.r], [patient.n],
    [patient.phantom_model]. *)
Definition self_r (self : ref) : M ref :=
  o <~ load self ;;
  match o with
  | BeamObject r _ _ _ _ => ret r
  | _ => raise AttributeError
  end.

Definition self_N (self : ref) : M ref :=
  o <~ load self ;;
  match o with
  | BeamObject _ _ N _ _ => ret N
  | _ => raise AttributeError
  end.

Definition patient_r (patient : ref) : M ref :=
  o <~ load patient ;;
  match o with
  | PhantomObject r _ _ => ret r
  | _ => raise AttributeError
  end.

Definition patient_n (patient : ref) : M ref :=
  o <~ load patient ;;
  match o with
  | PhantomObject _ n _ => ret n
  | _ => raise AttributeError
  end.

Definition patient_phantom_model (patient : ref) : M string :=
  o <~ load patient ;;
  match o with
  | PhantomObject _ _ m => ret m
  | _ => raise AttributeError
  end.

(** [Beam.check_hit(self, patient)] over the store.  [v], [hits], [temp1]
    and [temp2] are fresh arrays; [hits[np.where(hits)] = bool_entrance]
    overwrites [hits]. *)
Definition check_hit (self patient : ref) : M (list bool) :=
  pr <~ patient_r patient ;;
  a_pr <~ float_array pr ;;
  sr <~ self_r self ;;
  a_sr <~ float_array sr ;;
  r0 <~ lift (np.getrow a_sr 0) ;;
  v <~ new (FloatArray (map (fun p => np.sub p r0) a_pr)) ;;
  a_v <~ float_array v ;;
  sN <~ self_N self ;;
  a_N <~ float_array sN ;;
  hits <~ new (BoolArray (np.all_axis1 (np.le0 (np.dot_T a_v a_N)))) ;;
  model <~ patient_phantom_model patient ;;
  if negb (String.eqb model "plane") then
    a_v <~ float_array v ;;
    a_hits <~ bool_array hits ;;
    t1 <~ lift (np.getmask a_v a_hits) ;;
    temp1 <~ new (FloatArray t1) ;;
    pn <~ patient_n patient ;;
    a_pn <~ float_array pn ;;
    a_hits <~ bool_array hits ;;
    t2 <~ lift (np.getmask a_pn a_hits) ;;
    temp2 <~ new (FloatArray t2) ;;
    a_temp1 <~ float_array temp1 ;;
    a_temp2 <~ float_array temp2 ;;
    be <~ lift (Beam.bool_entrance a_temp1 a_temp2) ;;
    a_hits <~ bool_array hits ;;
    upd <~ lift (np.setindex a_hits (np.where_ a_hits) be) ;;
    _ <~ put hits (BoolArray upd) ;;
    bool_array hits
  else
    bool_array hits.

(** The value of an object: the arrays its attributes refer to. *)
Definition get_float (s : store) (l : ref) : option (list vec3) :=
  match nth_error s l with
  | Some (FloatArray a) => Some a
  | _ => None
  end.

Definition get_int (s : store) (l : ref) : option (list (Z * Z * Z)) :=
  match nth_error s l with
  | Some (IntArray a) => Some a
  | _ => None
  end.

Definition beam_at (s : store) (self : ref) : option Beam.t :=
  match nth_error s self with
  | Some (BeamObject r ijk N det_r det_ijk) =>
      match get_float s r, get_int s ijk, get_float s N,
            get_float s det_r, get_int s det_ijk with
      | Some a_r, Some a_ijk, Some a_N, Some a_det_r, Some a_det_ijk =>
          Some (Beam.mk a_r a_ijk a_N a_det_r a_det_ijk)
      | _, _, _, _, _ => None
      end
  | _ => None
  end.

Definition phantom_at (s : store) (patient : ref) : option Phantom.t :=
  match nth_error s patient with
  | Some (PhantomObject r n m) =>
      match get_float s r, get_float s n with
      | Some a_r, Some a_n => Some (Phantom.mk a_r a_n m)
      | _, _ => None
      end
  | _ => None
  end.

End Store.

(** ** Notions used to state the properties *)

(** The identity matrix. *)
Definition I3 : mat3 := ((1, 0, 0), (0, 1, 0), (0, 0, 1)).

(** [R . R^T = identity]. *)
Definition orthonormal (M : mat3) : Prop := np.matmul3 M (np.T3 M) = I3.

(** The transform applied to the beam: [(R2 . R1)^T . R3^T]. *)
Definition beam_transform (ap1 ap2 ap3 : R) : mat3 :=
  np.matmul3 (np.T3 (np.matmul3 (Beam.R2 ap2) (Beam.R1 ap1)))
             (np.T3 (Beam.R3 ap3)).

(** The transform applied to the detector: [(R2 . R1)^T]. *)
Definition detector_transform (ap1 ap2 : R) : mat3 :=
  np.T3 (np.matmul3 (Beam.R2 ap2) (Beam.R1 ap1)).

(** A matrix that is orthonormal from both sides: the form that is closed
    under product and transpose. *)
Definition rotation (M : mat3) : Prop :=
  orthonormal M /\ orthonormal (np.T3 M).

(** A row divided by its own norm. *)
Definition normalize (e : vec3) : vec3 :=
  let '(x, y, z) := e in (x / np.norm e, y / np.norm e, z / np.norm e).

Definition vzero : vec3 := (0, 0, 0).

(** The angles used for an event's row, in radians. *)
Definition event_angles (plot_setup : bool) (row : EventRow) : R * R * R :=
  if plot_setup then (0, 0, 0)
  else (np.deg2rad (Ap1 row), np.deg2rad (Ap2 row), np.deg2rad (Ap3 row)).

(** Source and scaled base corners, before rotation. *)
Definition source (row : EventRow) : vec3 := (0, DSI row, 0).

Definition corners (row : EventRow) : list vec3 :=
  [(0.5 * FS_long row, -1.0 * DID row, 0.5 * FS_lat row);
   (0.5 * FS_long row, -1.0 * DID row, -0.5 * FS_lat row);
   (-0.5 * FS_long row, -1.0 * DID row, -0.5 * FS_lat row);
   (-0.5 * FS_long row, -1.0 * DID row, 0.5 * FS_lat row)].

(** Scaled detector corners, before rotation: side length [w], distance
    [did]. *)
Definition det_corners (w did : R) : list vec3 :=
  [(0.5 * w, -1.0 * did, 0.5 * w);
   (0.5 * w, -1.0 * did, -0.5 * w);
   (-0.5 * w, -1.0 * did, -0.5 * w);
   (-0.5 * w, -1.0 * did, 0.5 * w);
   (0.5 * w, -1.2 * did, 0.5 * w);
   (0.5 * w, -1.2 * did, -0.5 * w);
   (-0.5 * w, -1.2 * did, -0.5 * w);
   (-0.5 * w, -1.2 * did, 0.5 * w)].

(** The unit vector from row 0 (the apex) to base corner [k] (row [k+1]). *)
Definition edge (r : list vec3) (k : nat) : vec3 :=
  normalize (np.sub (nth (S k) r vzero) (nth 0 r vzero)).

(** The vertex index triples of the beam and of the detector (the values
    of the two [np.column_stack] calls). *)
Definition beam_ijk : list (Z * Z * Z) :=
  [(0, 1, 2); (0, 1, 4); (0, 3, 2); (0, 3, 4); (1, 2, 3); (1, 3, 4)]%Z.

Definition detector_ijk : list (Z * Z * Z) :=
  [(0, 1, 2); (0, 2, 3); (4, 5, 6); (4, 6, 7); (0, 1, 4); (1, 5, 4);
   (0, 3, 4); (3, 7, 4); (3, 2, 7); (7, 2, 6); (1, 2, 6); (1, 6, 5)]%Z.

(** The object that [Beam.__init__] returns for an event whose row is
    [row], in a table whose first row is [row0], with the array program
    read row by row (lemma [init_Ok] below). *)
Definition built (plot_setup : bool) (row row0 : EventRow) : Beam.t :=
  let '(ap1, ap2, ap3) := event_angles plot_setup row in
  let r := map (np.matvec (beam_transform ap1 ap2 ap3))
               (source row :: corners row) in
  Beam.mk r beam_ijk
          [np.cross (edge r 0) (edge r 1); np.cross (edge r 1) (edge r 2);
           np.cross (edge r 2) (edge r 3); np.cross (edge r 3) (edge r 0)]
          (map (np.matvec (detector_transform ap1 ap2))
               (det_corners (DSL row0) (DID row)))
          detector_ijk.

(** [scatter mask vals]: the mask with its [True] entries replaced, in
    order, by [vals]. *)
Fixpoint scatter (mask vals : list bool) : list bool :=
  match mask with
  | [] => []
  | true :: mask' =>
      match vals with
      | x :: vals' => x :: scatter mask' vals'
      | [] => mask
      end
  | false :: mask' => false :: scatter mask' vals
  end.

(** All half-space tests of the beam on one source-to-cell vector. *)
Definition cone (N : list vec3) (v : vec3) : bool :=
  forallb (fun nk => Rleb (np.dot v nk) 0) N.

(** Five points (apex and four base corners) and four face normals. *)
Definition beam_shape (b : Beam.t) : Prop :=
  List.length (Beam.r b) = 5%nat /\ List.length (Beam.N b) = 4%nat.

(** The event of the two scenarios: no angulation, source 60 cm from the
    isocenter, detector 100 cm from the source, collimation 20 by 10. *)
Definition scenario_row : EventRow :=
  {| Ap1 := 0; Ap2 := 0; Ap3 := 0; DSI := 60;
     FS_long := 20; FS_lat := 10; DID := 100; DSL := 40 |}.

Definition scenario_beam : Beam.t := built false scenario_row scenario_row.

(** A store with the scenario beam at reference 5 and a cylinder phantom
    with two skin cells at reference 8. *)
Definition example_store : Store.store :=
  [Store.FloatArray (Beam.r scenario_beam);
   Store.IntArray (Beam.ijk scenario_beam);
   Store.FloatArray (Beam.N scenario_beam);
   Store.FloatArray (Beam.det_r scenario_beam);
   Store.IntArray (Beam.det_ijk scenario_beam);
   Store.BeamObject 0%nat 1%nat 2%nat 3%nat 4%nat;
   Store.FloatArray [(0, 0, 0); (0, -20, 0)];
   Store.FloatArray [(0, 1, 0); (0, -1, 0)];
   Store.PhantomObject 6%nat 7%nat "cylinder"].

(** ** Matrix algebra *)

Ltac mat_destruct :=
  repeat match goal with
         | M : mat3 |- _ => destruct M as [[[[? ?] ?] [[? ?] ?]] [[? ?] ?]]
         | p : vec3 |- _ => destruct p as [[? ?] ?]
         end.

Ltac pair_eq :=
  repeat match goal with
         | |- (_, _) = (_, _) => apply f_equal2
         end.

Ltac mat_eq := mat_destruct; cbn; pair_eq; ring.

Lemma T3_involutive (M : mat3) : np.T3 (np.T3 M) = M.
Proof. mat_destruct; reflexivity. Qed.

Lemma matmul3_assoc (A B C : mat3) :
  np.matmul3 (np.matmul3 A B) C = np.matmul3 A (np.matmul3 B C).
Proof. mat_eq. Qed.

Lemma T3_matmul3 (A B : mat3) :
  np.T3 (np.matmul3 A B) = np.matmul3 (np.T3 B) (np.T3 A).
Proof. mat_eq. Qed.

Lemma matmul3_I3_l (A : mat3) : np.matmul3 I3 A = A.
Proof. unfold I3; mat_eq. Qed.

Lemma matmul3_I3_r (A : mat3) : np.matmul3 A I3 = A.
Proof. unfold I3; mat_eq. Qed.

Lemma matvec_matmul3 (A B : mat3) (p : vec3) :
  np.matvec (np.matmul3 A B) p = np.matvec A (np.matvec B p).
Proof. mat_eq. Qed.

Lemma matvec_I3 (p : vec3) : np.matvec I3 p = p.
Proof. unfold I3; mat_eq. Qed.

Lemma rotation_T3 (M : mat3) : rotation M -> rotation (np.T3 M).
Proof.
  intros [H1 H2]; split; [exact H2|].
  unfold orthonormal in *; now rewrite !T3_involutive.
Qed.

Lemma rotation_matmul3 (A B : mat3) :
  rotation A -> rotation B -> rotation (np.matmul3 A B).
Proof.
  unfold rotation, orthonormal.
  rewrite !T3_involutive; intros [HA HA'] [HB HB']; split.
  - rewrite T3_matmul3, matmul3_assoc, <- (matmul3_assoc B), HB.
    now rewrite matmul3_I3_l.
  - rewrite T3_matmul3, matmul3_assoc, <- (matmul3_assoc (np.T3 A)), HA'.
    now rewrite matmul3_I3_l.
Qed.

Lemma cos2_sin2_mul (a : R) : cos a * cos a + sin a * sin a = 1.
Proof. pose proof (sin2_cos2 a) as H; unfold Rsqr in H; lra. Qed.

Ltac trig_eq a :=
  pose proof (cos2_sin2_mul a);
  unfold rotation, orthonormal, I3; cbn; split; pair_eq; nra.

Lemma rotation_R1 (ap1 : R) : rotation (Beam.R1 ap1).
Proof. trig_eq ap1. Qed.

Lemma rotation_R2 (ap2 : R) : rotation (Beam.R2 ap2).
Proof. trig_eq ap2. Qed.

Lemma rotation_R3 (ap3 : R) : rotation (Beam.R3 ap3).
Proof. trig_eq ap3. Qed.

Lemma rotation_detector_transform (ap1 ap2 : R) :
  rotation (detector_transform ap1 ap2).
Proof.
  apply rotation_T3, rotation_matmul3; [apply rotation_R2 | apply rotation_R1].
Qed.

Lemma rotation_beam_transform (ap1 ap2 ap3 : R) :
  rotation (beam_transform ap1 ap2 ap3).
Proof.
  apply rotation_matmul3.
  - apply rotation_detector_transform.
  - apply rotation_T3, rotation_R3.
Qed.

(** A rotation preserves dot products, hence norms. *)
Lemma dot_matvec_T3 (M : mat3) (p q : vec3) :
  np.dot (np.matvec M p) q = np.dot p (np.matvec (np.T3 M) q).
Proof. mat_eq. Qed.

Lemma rotation_dot (M : mat3) (p q : vec3) :
  rotation M -> np.dot (np.matvec M p) (np.matvec M q) = np.dot p q.
Proof.
  intros [_ H]; unfold orthonormal in H; rewrite T3_involutive in H.
  now rewrite dot_matvec_T3, <- matvec_matmul3, H, matvec_I3.
Qed.

Lemma norm_dot (p : vec3) : np.norm p = sqrt (np.dot p p).
Proof. mat_destruct; reflexivity. Qed.

Lemma rotation_norm (M : mat3) (p : vec3) :
  rotation M -> np.norm (np.matvec M p) = np.norm p.
Proof. intros H; now rewrite !norm_dot, rotation_dot. Qed.

(** ** Array operations, row by row *)

Lemma T'_T (a : list vec3) : np.T' (np.T a) = a.
Proof.
  induction a as [|[[x y] z] a IH]; [reflexivity|].
  unfold np.T', np.T in *; cbn [map fst snd np.zip3]; now rewrite IH.
Qed.

Lemma lincomb_T (a b c : R) (l : list vec3) :
  np.lincomb a b c (map (fun p => fst (fst p)) l) (map (fun p => snd (fst p)) l)
             (map (fun p => snd p) l)
  = map (fun p => np.dot (a, b, c) p) l.
Proof.
  induction l as [|[[x y] z] l IH]; [reflexivity|].
  cbn [map fst snd np.lincomb np.dot]; now rewrite IH.
Qed.

(** [np.matmul(M, a.T)] is the transpose of [a] with [M] applied to each
    row. *)
Lemma matmul_T (M : mat3) (a : list vec3) :
  np.matmul M (np.T a) = np.T (map (np.matvec M) a).
Proof.
  destruct M as [[[[a11 a12] a13] [[a21 a22] a23]] [[a31 a32] a33]].
  unfold np.matmul, np.T; rewrite !lincomb_T, !map_map; reflexivity.
Qed.

Lemma T'_matmul_T (M : mat3) (a : list vec3) :
  np.T' (np.matmul M (np.T a)) = map (np.matvec M) a.
Proof. now rewrite matmul_T, T'_T. Qed.

Lemma divide_bcast_norm (d : list vec3) :
  np.T' (np.divide_bcast (np.T d) (np.norm_axis1 d)) = map normalize d.
Proof.
  induction d as [|[[x y] z] d IH]; [reflexivity|].
  unfold np.T', np.divide_bcast, np.T, np.norm_axis1 in *.
  cbn [map fst snd np.divide np.zip3]; now rewrite IH.
Qed.

Lemma norm_nonneg (e : vec3) : 0 <= np.norm e.
Proof. destruct e as [[x y] z]; apply sqrt_pos. Qed.

Lemma norm_zero_iff (e : vec3) : np.norm e = 0 <-> e = (0, 0, 0).
Proof.
  destruct e as [[x y] z]; unfold np.norm; split.
  - intros H; apply sqrt_eq_0 in H; [|nra].
    assert (x = 0) by nra; assert (y = 0) by nra; assert (z = 0) by nra.
    now subst.
  - intros H; injection H as -> -> ->.
    replace (0 * 0 + 0 * 0 + 0 * 0) with 0 by ring; apply sqrt_0.
Qed.

Lemma sub_zero_iff (p q : vec3) : np.sub p q = (0, 0, 0) <-> p = q.
Proof.
  destruct p as [[x y] z], q as [[x' y'] z']; cbn; split; intros H.
  - injection H as H1 H2 H3; pair_eq; lra.
  - injection H as -> -> ->; pair_eq; ring.
Qed.

(** A non-zero row divided by its norm has norm one. *)
Lemma norm_normalize (e : vec3) : e <> (0, 0, 0) -> np.norm (normalize e) = 1.
Proof.
  intros He.
  assert (Hn : np.norm e <> 0) by (now rewrite norm_zero_iff).
  pose proof (norm_nonneg e) as Hp.
  destruct e as [[x y] z]; unfold normalize.
  set (L := np.norm (x, y, z)) in *.
  assert (HL : L * L = x * x + y * y + z * z).
  { unfold L, np.norm; apply sqrt_sqrt; nra. }
  unfold np.norm at 1.
  replace (x / L * (x / L) + y / L * (y / L) + z / L * (z / L)) with 1.
  - apply sqrt_1.
  - field_simplify_eq; [lra | exact Hn].
Qed.

(** ** What [Beam.__init__] builds *)

Lemma loc_Ok (C : EventRow -> R) (d : DataFrame) (e : Z) (row : EventRow) :
  (0 <= e)%Z -> nth_error d (Z.to_nat e) = Some row -> loc_ C d e = Ok (C row).
Proof.
  intros He Hrow; unfold loc_.
  destruct (Z.ltb_spec e 0); [lia|]; now rewrite Hrow.
Qed.

Lemma loc_KeyError (C : EventRow -> R) (d : DataFrame) (e : Z) :
  (e < 0)%Z \/ (Z.of_nat (List.length d) <= e)%Z -> loc_ C d e = Raise KeyError.
Proof.
  intros He; unfold loc_.
  destruct (Z.ltb_spec e 0); [reflexivity|].
  destruct (nth_error d (Z.to_nat e)) eqn:E; [|reflexivity].
  assert (Z.to_nat e < List.length d)%nat
    by (apply nth_error_Some; congruence).
  lia.
Qed.

Lemma init_Ok (d : DataFrame) (e : Z) (ps : bool) (row row0 : EventRow) :
  (0 <= e)%Z -> nth_error d (Z.to_nat e) = Some row -> nth_error d 0 = Some row0 ->
  Beam.__init__ d e ps = Ok (built ps row row0).
Proof.
  intros He Hrow Hrow0.
  unfold Beam.__init__, Beam.angles, built, event_angles.
  rewrite !(loc_Ok _ d e row He Hrow).
  rewrite (loc_Ok DSL d 0 row0) by (auto; lia).
  destruct ps; cbn [bind].
  all: rewrite matmul_T, T'_matmul_T, T'_matmul_T, !map_map.
  all: unfold Beam.unit_vectors.
  all: cbn [np.imul_col0 np.imul_col1 np.imul_col2 map np.getrow nth_error bind tl].
  all: rewrite divide_bcast_norm.
  all: cbn [map Beam.face_normals np.getrow nth_error bind np.column_stack].
  all: unfold edge, beam_ijk, detector_ijk, det_corners, corners, source; cbn [map nth].
  all: unfold beam_transform, detector_transform; now rewrite !matvec_matmul3.
Qed.

Lemma init_KeyError (d : DataFrame) (e : Z) (ps : bool) :
  (e < 0)%Z \/ (Z.of_nat (List.length d) <= e)%Z ->
  Beam.__init__ d e ps = Raise KeyError.
Proof.
  intros He; unfold Beam.__init__, Beam.angles.
  rewrite !(loc_KeyError _ d e He); now destruct ps.
Qed.

(** The constructor is total: it raises [KeyError] for an event label that
    is not in the table and returns the object [built] otherwise. *)
Lemma init_cases (d : DataFrame) (e : Z) (ps : bool) :
  (((e < 0)%Z \/ (Z.of_nat (List.length d) <= e)%Z) /\
   Beam.__init__ d e ps = Raise KeyError) \/
  (exists row row0,
      (0 <= e)%Z /\ nth_error d (Z.to_nat e) = Some row /\
      nth_error d 0 = Some row0 /\
      Beam.__init__ d e ps = Ok (built ps row row0)).
Proof.
  destruct (Z.ltb_spec e 0) as [Hneg|Hpos].
  - left; split; [now left | apply init_KeyError; now left].
  - destruct (nth_error d (Z.to_nat e)) as [row|] eqn:Hrow.
    + right.
      destruct d as [|row0 d']; [now destruct (Z.to_nat e)|].
      exists row, row0; repeat split; auto.
      now apply init_Ok.
    + apply nth_error_None in Hrow.
      left; split; [right; lia | apply init_KeyError; right; lia].
Qed.

Lemma init_inv (d : DataFrame) (e : Z) (ps : bool) (b : Beam.t) :
  Beam.__init__ d e ps = Ok b ->
  exists row row0,
    (0 <= e)%Z /\ nth_error d (Z.to_nat e) = Some row /\
    nth_error d 0 = Some row0 /\ b = built ps row row0.
Proof.
  intros H; destruct (init_cases d e ps) as [[_ HK]|(row & row0 & He & Hr & Hr0 & HO)].
  - congruence.
  - exists row, row0; repeat split; auto; congruence.
Qed.

Lemma built_r (ps : bool) (row row0 : EventRow) :
  Beam.r (built ps row row0)
  = let '(ap1, ap2, ap3) := event_angles ps row in
    map (np.matvec (beam_transform ap1 ap2 ap3)) (source row :: corners row).
Proof. unfold built; now destruct (event_angles ps row) as [[ap1 ap2] ap3]. Qed.

(** ** Masks, selection and scattered assignment *)

Section Masks.

Context {A : Type}.

Lemma select_map {B : Type} (f : A -> B) (a : list A) (mask : list bool) :
  np.select (map f a) mask = map f (np.select a mask).
Proof.
  revert mask; induction a as [|x a IH]; intros [|b mask]; cbn; auto.
  destruct b; cbn; now rewrite IH.
Qed.

Lemma select_combine {B : Type} (a : list A) (b : list B) (mask : list bool) :
  combine (np.select a mask) (np.select b mask) = np.select (combine a b) mask.
Proof.
  revert b mask; induction a as [|x a IH]; intros b mask; [reflexivity|].
  destruct b as [|y b].
  { destruct mask as [|[] mask]; cbn; auto; now destruct (np.select a mask). }
  destruct mask as [|m mask]; [reflexivity|].
  destruct m; cbn; now rewrite IH.
Qed.

Lemma where_from_length (a : list A) (mask : list bool) (i : nat) :
  List.length a = List.length mask ->
  List.length (np.where_from i mask) = List.length (np.select a mask).
Proof.
  revert mask i; induction a as [|x a IH]; intros [|b mask] i H; cbn in *;
    try discriminate; auto.
  destruct b; cbn; rewrite (IH mask (S i)); auto.
Qed.

Lemma getmask_Ok (a : list A) (mask : list bool) :
  List.length a = List.length mask -> np.getmask a mask = Ok (np.select a mask).
Proof. intros H; unfold np.getmask; now rewrite H, Nat.eqb_refl. Qed.

Lemma getmask_IndexError (a : list A) (mask : list bool) :
  List.length a <> List.length mask -> np.getmask a mask = Raise IndexError.
Proof.
  intros H; unfold np.getmask.
  now destruct (Nat.eqb_spec (List.length a) (List.length mask)).
Qed.

Lemma setindex_Ok (a : list A) (idx : list nat) (vals : list A) :
  List.length idx = List.length vals ->
  np.setindex a idx vals = Ok (np.setitems a idx vals).
Proof.
  intros H; unfold np.setindex.
  destruct vals as [|x [|y vals]]; cbn in *.
  - now rewrite H.
  - now rewrite H.
  - now rewrite H, Nat.eqb_refl.
Qed.

Lemma setitem_app (pre a : list A) (y x : A) :
  np.setitem (pre ++ y :: a) (List.length pre) x = (pre ++ [x]) ++ a.
Proof. induction pre as [|z pre IH]; cbn; [reflexivity | now rewrite IH]. Qed.

End Masks.

Lemma setitems_where_from (pre mask vals : list bool) :
  np.setitems (pre ++ mask) (np.where_from (List.length pre) mask) vals
  = pre ++ scatter mask vals.
Proof.
  revert pre vals; induction mask as [|b mask IH]; intros pre vals.
  - cbn; now destruct vals.
  - destruct b; cbn [np.where_from scatter].
    + destruct vals as [|x vals]; [reflexivity|].
      cbn [np.setitems]; rewrite setitem_app.
      replace (S (List.length pre)) with (List.length (pre ++ [x]))
        by (rewrite length_app; cbn; lia).
      now rewrite IH, <- app_assoc.
    + replace (pre ++ false :: mask) with ((pre ++ [false]) ++ mask)
        by now rewrite <- app_assoc.
      replace (S (List.length pre)) with (List.length (pre ++ [false]))
        by (rewrite length_app; cbn; lia).
      now rewrite IH, <- app_assoc.
Qed.

Lemma setitems_where (mask vals : list bool) :
  np.setitems mask (np.where_ mask) vals = scatter mask vals.
Proof. exact (setitems_where_from [] mask vals). Qed.

(** Writing [g] of the selected rows back at the selected positions is the
    pointwise conjunction of the mask and [g]. *)
Lemma scatter_select {A : Type} (c g : A -> bool) (xs : list A) :
  scatter (map c xs) (map g (np.select xs (map c xs)))
  = map (fun x => c x && g x) xs.
Proof.
  induction xs as [|x xs IH]; [reflexivity|].
  cbn [map np.select scatter]; destruct (c x); cbn [map scatter andb];
    now rewrite IH.
Qed.

(** ** What [Beam.check_hit] computes *)

Lemma Rleb_true (x y : R) : Rleb x y = true <-> x <= y.
Proof. unfold Rleb; destruct (Rle_dec x y); split; intros; auto; discriminate. Qed.

Lemma Rleb_false (x y : R) : Rleb x y = false <-> y < x.
Proof.
  unfold Rleb; destruct (Rle_dec x y); split; intros; auto;
    try discriminate; lra.
Qed.

Lemma hits_cone (v N : list vec3) :
  np.all_axis1 (np.le0 (np.dot_T v N)) = map (cone N) v.
Proof.
  unfold np.all_axis1, np.le0, np.dot_T, cone; rewrite !map_map.
  apply map_ext; intros vi; rewrite map_map.
  induction N as [|nk N IH]; cbn; [reflexivity | now rewrite IH].
Qed.

Lemma cone_spec (N : list vec3) (v : vec3) :
  cone N v = true <->
  forall k, (k < List.length N)%nat -> np.dot v (nth k N vzero) <= 0.
Proof.
  unfold cone; rewrite forallb_forall; split.
  - intros H k Hk; apply Rleb_true, H, nth_In, Hk.
  - intros H nk Hin; apply Rleb_true.
    destruct (In_nth N nk vzero Hin) as (k & Hk & <-); now apply H.
Qed.

Lemma getrow_app (T : Type) (pre l : list T) (x : T) :
  np.getrow (pre ++ x :: l) (List.length pre) = Ok x.
Proof.
  unfold np.getrow; rewrite nth_error_app2 by lia; now rewrite Nat.sub_diag.
Qed.

Lemma bool_entrance_from (t1 t2 pre1 pre2 : list vec3) :
  List.length t1 = List.length t2 -> List.length pre1 = List.length pre2 ->
  mapM (fun i =>
          a <- np.getrow (pre1 ++ t1) i ;;
          b <- np.getrow (pre2 ++ t2) i ;;
          Ok (Rleb (np.dot a b) 0))
       (seq (List.length pre1) (List.length t1))
  = Ok (map (fun ab => Rleb (np.dot (fst ab) (snd ab)) 0) (combine t1 t2)).
Proof.
  revert t2 pre1 pre2; induction t1 as [|x t1 IH]; intros [|y t2] pre1 pre2 Ht Hp;
    try discriminate; [reflexivity|].
  cbn [List.length seq mapM combine map fst snd].
  rewrite getrow_app, Hp, getrow_app; cbn [bind].
  specialize (IH t2 (pre1 ++ [x]) (pre2 ++ [y])).
  rewrite !length_app, <- !app_assoc in IH; cbn [List.length app] in IH.
  rewrite Nat.add_1_r, ?Hp in IH.
  rewrite IH; [reflexivity | now injection Ht | lia].
Qed.

Lemma bool_entrance_Ok (t1 t2 : list vec3) :
  List.length t1 = List.length t2 ->
  Beam.bool_entrance t1 t2
  = Ok (map (fun ab => Rleb (np.dot (fst ab) (snd ab)) 0) (combine t1 t2)).
Proof. intros H; exact (bool_entrance_from t1 t2 [] [] H eq_refl). Qed.

Lemma select_length_same {A B : Type} (a : list A) (b : list B) (mask : list bool) :
  List.length a = List.length b ->
  List.length (np.select a mask) = List.length (np.select b mask).
Proof.
  revert b mask; induction a as [|x a IH]; intros [|y b] [|m mask] H;
    try discriminate; auto.
  injection H as H; destruct m; cbn; auto.
Qed.

Lemma combine_map_l {A B C : Type} (f : A -> C) (a : list A) (b : list B) :
  combine (map f a) b = map (fun ab => (f (fst ab), snd ab)) (combine a b).
Proof.
  revert b; induction a as [|x a IH]; intros [|y b]; cbn; auto.
  now rewrite IH.
Qed.

Lemma map_fst_combine {A B C : Type} (f : A -> C) (a : list A) (b : list B) :
  List.length a = List.length b ->
  map f a = map (fun ab => f (fst ab)) (combine a b).
Proof.
  revert b; induction a as [|x a IH]; intros [|y b] H; try discriminate; auto.
  cbn; injection H as H; now rewrite <- IH.
Qed.

(** Plane phantoms: the cone test alone. *)
Lemma check_hit_plane (self : Beam.t) (patient : Phantom.t) (apex : vec3) :
  nth_error (Beam.r self) 0 = Some apex ->
  Phantom.phantom_model patient = "plane"%string ->
  Beam.check_hit self patient
  = Ok (map (fun p => cone (Beam.N self) (np.sub p apex)) (Phantom.r patient)).
Proof.
  intros Hr Hm; unfold Beam.check_hit, np.getrow.
  rewrite Hr, Hm; cbn [bind String.eqb negb].
  rewrite hits_cone, map_map.
  now replace (String.eqb "plane" "plane") with true by reflexivity.
Qed.

(** Other phantoms with one normal per skin cell: the cone test and the
    entrance test. *)
Lemma check_hit_3d (self : Beam.t) (patient : Phantom.t) (apex : vec3) :
  nth_error (Beam.r self) 0 = Some apex ->
  Phantom.phantom_model patient <> "plane"%string ->
  List.length (Phantom.n patient) = List.length (Phantom.r patient) ->
  Beam.check_hit self patient
  = Ok (map (fun pn => cone (Beam.N self) (np.sub (fst pn) apex)
                       && Rleb (np.dot (np.sub (fst pn) apex) (snd pn)) 0)
            (combine (Phantom.r patient) (Phantom.n patient))).
Proof.
  intros Hr Hm Hlen; unfold Beam.check_hit, np.getrow.
  rewrite Hr; cbn [bind].
  apply String.eqb_neq in Hm; rewrite Hm; cbn [negb].
  rewrite hits_cone, map_map.
  set (c := fun pn : vec3 * vec3 => cone (Beam.N self) (np.sub (fst pn) apex)).
  set (g := fun pn : vec3 * vec3 => Rleb (np.dot (np.sub (fst pn) apex) (snd pn)) 0).
  set (xs := combine (Phantom.r patient) (Phantom.n patient)).
  assert (Hhits : map (fun x => cone (Beam.N self) (np.sub x apex)) (Phantom.r patient)
                  = map c xs).
  { unfold c, xs. now rewrite <- (map_fst_combine
      (fun x => cone (Beam.N self) (np.sub x apex))). }
  rewrite Hhits.
  rewrite !getmask_Ok by (rewrite ?length_map; unfold xs;
                          rewrite ?length_combine; lia).
  cbn [bind].
  rewrite bool_entrance_Ok
    by (apply select_length_same; rewrite length_map; lia).
  cbn [bind].
  rewrite select_map, combine_map_l, select_combine, map_map; fold xs.
  rewrite setindex_Ok.
  - cbn [bind]; rewrite setitems_where; f_equal.
    exact (scatter_select c g xs).
  - unfold np.where_; rewrite (where_from_length xs), length_map;
      [reflexivity | now rewrite length_map].
Qed.

(** Other phantoms whose normals do not match the skin cells one to one:
    the boolean mask does not fit [patient.n]. *)
Lemma check_hit_3d_mismatch (self : Beam.t) (patient : Phantom.t) (apex : vec3) :
  nth_error (Beam.r self) 0 = Some apex ->
  Phantom.phantom_model patient <> "plane"%string ->
  List.length (Phantom.n patient) <> List.length (Phantom.r patient) ->
  Beam.check_hit self patient = Raise IndexError.
Proof.
  intros Hr Hm Hlen; unfold Beam.check_hit, np.getrow.
  rewrite Hr; cbn [bind].
  apply String.eqb_neq in Hm; rewrite Hm; cbn [negb].
  rewrite hits_cone, map_map.
  rewrite getmask_Ok by now rewrite !length_map.
  cbn [bind]; now rewrite getmask_IndexError by now rewrite length_map.
Qed.

(** ** Running [check_hit] over the store *)

Module StoreFacts.
Import Store.

Lemma bindM_Ok {A B : Type} (m : M A) (k : A -> M B) (s s' : store) (a : A) :
  m s = (Ok a, s') -> bindM m k s = k a s'.
Proof. intros H; unfold bindM; now rewrite H. Qed.

Lemma bindM_Raise {A B : Type} (m : M A) (k : A -> M B) (s s' : store) (e : exn) :
  m s = (Raise e, s') -> bindM m k s = (Raise e, s').
Proof. intros H; unfold bindM; now rewrite H. Qed.

Lemma lookup_old (s e : store) (l : ref) (o : object) :
  nth_error s l = Some o -> nth_error (s ++ e) l = Some o.
Proof.
  intros H; rewrite nth_error_app1; auto.
  apply nth_error_Some; congruence.
Qed.

Lemma lookup_new (s e : store) (k : nat) :
  nth_error (s ++ e) (List.length s + k)%nat = nth_error e k.
Proof.
  rewrite nth_error_app2 by lia; f_equal; lia.
Qed.

Lemma load_at (s : store) (l : ref) (o : object) :
  nth_error s l = Some o -> load l s = (Ok o, s).
Proof. intros H; unfold load; now rewrite H. Qed.

Lemma float_array_at (s : store) (l : ref) (a : list vec3) :
  nth_error s l = Some (FloatArray a) -> float_array l s = (Ok a, s).
Proof. intros H; unfold float_array; now rewrite (bindM_Ok _ _ _ _ _ (load_at _ _ _ H)). Qed.

Lemma bool_array_at (s : store) (l : ref) (a : list bool) :
  nth_error s l = Some (BoolArray a) -> bool_array l s = (Ok a, s).
Proof. intros H; unfold bool_array; now rewrite (bindM_Ok _ _ _ _ _ (load_at _ _ _ H)). Qed.

Lemma self_r_at (s : store) (self r ijk N det_r det_ijk : ref) :
  nth_error s self = Some (BeamObject r ijk N det_r det_ijk) ->
  self_r self s = (Ok r, s).
Proof. intros H; unfold self_r; now rewrite (bindM_Ok _ _ _ _ _ (load_at _ _ _ H)). Qed.

Lemma self_N_at (s : store) (self r ijk N det_r det_ijk : ref) :
  nth_error s self = Some (BeamObject r ijk N det_r det_ijk) ->
  self_N self s = (Ok N, s).
Proof. intros H; unfold self_N; now rewrite (bindM_Ok _ _ _ _ _ (load_at _ _ _ H)). Qed.

Lemma patient_r_at (s : store) (patient r n : ref) (m : string) :
  nth_error s patient = Some (PhantomObject r n m) ->
  patient_r patient s = (Ok r, s).
Proof. intros H; unfold patient_r; now rewrite (bindM_Ok _ _ _ _ _ (load_at _ _ _ H)). Qed.

Lemma patient_n_at (s : store) (patient r n : ref) (m : string) :
  nth_error s patient = Some (PhantomObject r n m) ->
  patient_n patient s = (Ok n, s).
Proof. intros H; unfold patient_n; now rewrite (bindM_Ok _ _ _ _ _ (load_at _ _ _ H)). Qed.

Lemma patient_phantom_model_at (s : store) (patient r n : ref) (m : string) :
  nth_error s patient = Some (PhantomObject r n m) ->
  patient_phantom_model patient s = (Ok m, s).
Proof.
  intros H; unfold patient_phantom_model.
  now rewrite (bindM_Ok _ _ _ _ _ (load_at _ _ _ H)).
Qed.

Lemma setitem_new {A : Type} (s e : list A) (k : nat) (o : A) :
  np.setitem (s ++ e) (List.length s + k)%nat o = s ++ np.setitem e k o.
Proof. induction s as [|x s IH]; cbn; [reflexivity | now rewrite IH]. Qed.

Lemma put_new (s e : store) (k : nat) (o : object) :
  put (List.length s + k)%nat o (s ++ e) = (Ok tt, s ++ np.setitem e k o).
Proof. unfold put; now rewrite setitem_new. Qed.

Lemma get_float_inv (s : store) (l : ref) (a : list vec3) :
  get_float s l = Some a -> nth_error s l = Some (FloatArray a).
Proof.
  unfold get_float; destruct (nth_error s l) as [[]|]; intros H;
    inversion H; reflexivity.
Qed.

Lemma get_int_inv (s : store) (l : ref) (a : list (Z * Z * Z)) :
  get_int s l = Some a -> nth_error s l = Some (IntArray a).
Proof.
  unfold get_int; destruct (nth_error s l) as [[]|]; intros H;
    inversion H; reflexivity.
Qed.

Lemma beam_at_inv (s : store) (self : ref) (b : Beam.t) :
  beam_at s self = Some b ->
  exists r ijk N det_r det_ijk,
    nth_error s self = Some (BeamObject r ijk N det_r det_ijk) /\
    nth_error s r = Some (FloatArray (Beam.r b)) /\
    nth_error s ijk = Some (IntArray (Beam.ijk b)) /\
    nth_error s N = Some (FloatArray (Beam.N b)) /\
    nth_error s det_r = Some (FloatArray (Beam.det_r b)) /\
    nth_error s det_ijk = Some (IntArray (Beam.det_ijk b)).
Proof.
  unfold beam_at.
  destruct (nth_error s self) as [[| | |r ijk N det_r det_ijk|]|];
    try discriminate.
  destruct (get_float s r) eqn:E1; try discriminate.
  destruct (get_int s ijk) eqn:E2; try discriminate.
  destruct (get_float s N) eqn:E3; try discriminate.
  destruct (get_float s det_r) eqn:E4; try discriminate.
  destruct (get_int s det_ijk) eqn:E5; try discriminate.
  intros H; inversion H; subst; cbn.
  exists r, ijk, N, det_r, det_ijk.
  repeat split; auto using get_float_inv, get_int_inv.
Qed.

Lemma phantom_at_inv (s : store) (patient : ref) (p : Phantom.t) :
  phantom_at s patient = Some p ->
  exists r n,
    nth_error s patient = Some (PhantomObject r n (Phantom.phantom_model p)) /\
    nth_error s r = Some (FloatArray (Phantom.r p)) /\
    nth_error s n = Some (FloatArray (Phantom.n p)).
Proof.
  unfold phantom_at.
  destruct (nth_error s patient) as [[| | | |r n m]|]; try discriminate.
  destruct (get_float s r) eqn:E1; try discriminate.
  destruct (get_float s n) eqn:E2; try discriminate.
  intros H; inversion H; subst; cbn.
  exists r, n; repeat split; auto using get_float_inv.
Qed.

(** Appending objects to the store changes no existing object. *)
Lemma beam_at_app (s e : store) (self : ref) (b : Beam.t) :
  beam_at s self = Some b -> beam_at (s ++ e) self = Some b.
Proof.
  intros H; destruct (beam_at_inv _ _ _ H)
    as (r & ijk & N & det_r & det_ijk & H0 & H1 & H2 & H3 & H4 & H5).
  unfold beam_at, get_float, get_int.
  rewrite (lookup_old _ e _ _ H0), (lookup_old _ e _ _ H1),
    (lookup_old _ e _ _ H2), (lookup_old _ e _ _ H3),
    (lookup_old _ e _ _ H4), (lookup_old _ e _ _ H5).
  now destruct b.
Qed.

Lemma phantom_at_app (s e : store) (patient : ref) (p : Phantom.t) :
  phantom_at s patient = Some p -> phantom_at (s ++ e) patient = Some p.
Proof.
  intros H; destruct (phantom_at_inv _ _ _ H) as (r & n & H0 & H1 & H2).
  unfold phantom_at, get_float.
  rewrite (lookup_old _ e _ _ H0), (lookup_old _ e _ _ H1),
    (lookup_old _ e _ _ H2).
  now destruct p.
Qed.

Lemma lookup_fresh (s : store) (o : object) :
  nth_error (s ++ [o]) (List.length s) = Some o.
Proof. rewrite nth_error_app2 by lia; now rewrite Nat.sub_diag. Qed.

Ltac look :=
  first [eassumption | apply lookup_fresh | apply lookup_old; look].

Ltac step lem := erewrite bindM_Ok by (eapply lem; look); cbv beta.

Ltac step_new := erewrite bindM_Ok by (unfold new; reflexivity); cbv beta.

(** A call on a store that holds the beam [b] at [self] and the phantom [p]
    at [patient] returns what [Beam.check_hit b p] returns and only appends
    to the store. *)
Lemma check_hit_run (s : store) (self patient : ref) (b : Beam.t) (p : Phantom.t) :
  beam_at s self = Some b -> phantom_at s patient = Some p ->
  exists e, check_hit self patient s = (Beam.check_hit b p, s ++ e).
Proof.
  intros Hb Hp.
  destruct (beam_at_inv _ _ _ Hb)
    as (r & ijk & N & det_r & det_ijk & B0 & B1 & B2 & B3 & B4 & B5).
  destruct (phantom_at_inv _ _ _ Hp) as (pr & pn & P0 & P1 & P2).
  unfold check_hit, Beam.check_hit.
  step patient_r_at. step float_array_at.
  step self_r_at. step float_array_at.
  destruct (np.getrow (Beam.r b) 0) as [r0|ex] eqn:E0.
  2:{ exists []; rewrite app_nil_r.
      now erewrite bindM_Raise by (unfold lift; reflexivity). }
  erewrite bindM_Ok by (unfold lift; reflexivity); cbv beta; cbn [bind].
  step_new. step float_array_at.
  step self_N_at. step float_array_at.
  step_new. step patient_phantom_model_at.
  set (v := map (fun q => np.sub q r0) (Phantom.r p)).
  set (hits := np.all_axis1 (np.le0 (np.dot_T v (Beam.N b)))).
  destruct (negb (Phantom.phantom_model p =? "plane")%string).
  2:{ exists [FloatArray v; BoolArray hits].
      rewrite <- app_assoc; cbn [app].
      apply bool_array_at.
      replace (List.length (s ++ [FloatArray v])) with (List.length s + 1)%nat
        by (rewrite length_app; reflexivity).
      now rewrite lookup_new. }
  step float_array_at. step bool_array_at.
  destruct (np.getmask v hits) as [t1|ex] eqn:E1.
  2:{ exists [FloatArray v; BoolArray hits].
      rewrite <- app_assoc; cbn [app bind].
      now erewrite bindM_Raise by (unfold lift; reflexivity). }
  erewrite bindM_Ok by (unfold lift; reflexivity); cbv beta; cbn [bind].
  step_new. step patient_n_at. step float_array_at. step bool_array_at.
  destruct (np.getmask (Phantom.n p) hits) as [t2|ex] eqn:E2.
  2:{ exists [FloatArray v; BoolArray hits; FloatArray t1].
      rewrite <- !app_assoc; cbn [app bind].
      now erewrite bindM_Raise by (unfold lift; reflexivity). }
  erewrite bindM_Ok by (unfold lift; reflexivity); cbv beta; cbn [bind].
  step_new. step float_array_at. step float_array_at.
  destruct (Beam.bool_entrance t1 t2) as [be|ex] eqn:E3.
  2:{ exists [FloatArray v; BoolArray hits; FloatArray t1; FloatArray t2].
      rewrite <- !app_assoc; cbn [app bind].
      now erewrite bindM_Raise by (unfold lift; reflexivity). }
  erewrite bindM_Ok by (unfold lift; reflexivity); cbv beta; cbn [bind].
  step bool_array_at.
  destruct (np.setindex hits (np.where_ hits) be) as [upd|ex] eqn:E4.
  2:{ exists [FloatArray v; BoolArray hits; FloatArray t1; FloatArray t2].
      rewrite <- !app_assoc; cbn [app bind].
      now erewrite bindM_Raise by (unfold lift; reflexivity). }
  erewrite bindM_Ok by (unfold lift; reflexivity); cbv beta; cbn [bind].
  exists [FloatArray v; BoolArray upd; FloatArray t1; FloatArray t2].
  rewrite <- !app_assoc; cbn [app].
  replace (List.length (s ++ [FloatArray v])) with (List.length s + 1)%nat
    by (rewrite length_app; reflexivity).
  erewrite bindM_Ok by apply put_new; cbv beta; cbn [np.setitem].
  apply bool_array_at; now rewrite lookup_new.
Qed.

End StoreFacts.

(** ** Shape of a beam *)

Lemma built_shape (ps : bool) (row row0 : EventRow) :
  beam_shape (built ps row row0).
Proof.
  unfold beam_shape, built.
  destruct (event_angles ps row) as [[ap1 ap2] ap3]; now cbn.
Qed.

Lemma init_shape (d : DataFrame) (e : Z) (ps : bool) (b : Beam.t) :
  Beam.__init__ d e ps = Ok b -> beam_shape b.
Proof.
  intros H; destruct (init_inv _ _ _ _ H) as (row & row0 & _ & _ & _ & ->).
  apply built_shape.
Qed.

Lemma shape_apex (b : Beam.t) :
  beam_shape b -> nth_error (Beam.r b) 0 = Some (nth 0 (Beam.r b) vzero).
Proof.
  intros [Hr _]; destruct (Beam.r b); [discriminate | reflexivity].
Qed.

Lemma in_range_row (d : DataFrame) (e : Z) (row : EventRow) :
  nth_error d (Z.to_nat e) = Some row -> exists row0, nth_error d 0 = Some row0.
Proof.
  destruct d as [|row0 d]; [now destruct (Z.to_nat e) | now exists row0].
Qed.

(** ** Signs of the half-space tests *)

Lemma cross_normalize (v a b : vec3) :
  np.dot v (np.cross (normalize a) (normalize b))
  = np.dot v (np.cross a b) * (/ np.norm a * / np.norm b).
Proof.
  destruct v as [[v1 v2] v3], a as [[a1 a2] a3], b as [[b1 b2] b3].
  unfold normalize.
  set (na := np.norm (a1, a2, a3)); set (nb := np.norm (b1, b2, b3)).
  cbn [np.dot np.cross]; unfold Rdiv; ring.
Qed.

Lemma norm_pos (e : vec3) : e <> vzero -> 0 < np.norm e.
Proof.
  intros He; destruct (norm_nonneg e) as [H|H]; [exact H|].
  symmetry in H; apply norm_zero_iff in H; contradiction.
Qed.

Lemma halfspace_sign (v a b : vec3) :
  a <> vzero -> b <> vzero ->
  Rleb (np.dot v (np.cross (normalize a) (normalize b))) 0
  = Rleb (np.dot v (np.cross a b)) 0.
Proof.
  intros Ha Hb; apply norm_pos in Ha, Hb.
  rewrite cross_normalize.
  assert (Hs : 0 < / np.norm a * / np.norm b)
    by (apply Rmult_lt_0_compat; now apply Rinv_0_lt_compat).
  set (k := / np.norm a * / np.norm b) in *.
  set (x := np.dot v (np.cross a b)).
  unfold Rleb; destruct (Rle_dec (x * k) 0), (Rle_dec x 0); auto; exfalso; nra.
Qed.

(** ** The transforms at zero angles *)

Lemma deg2rad_0 : np.deg2rad 0 = 0.
Proof. unfold np.deg2rad; lra. Qed.

Lemma beam_transform_0 (ap3 : R) (p : vec3) :
  np.matvec (beam_transform 0 0 ap3) p = np.matvec (np.T3 (Beam.R3 ap3)) p.
Proof.
  unfold beam_transform, Beam.R1, Beam.R2; rewrite cos_0, sin_0.
  destruct p as [[x y] z]; cbn; pair_eq; ring.
Qed.

Lemma beam_transform_000 (p : vec3) : np.matvec (beam_transform 0 0 0) p = p.
Proof.
  rewrite beam_transform_0; unfold Beam.R3; rewrite cos_0, sin_0.
  destruct p as [[x y] z]; cbn; pair_eq; ring.
Qed.

(** The source point under the beam transform. *)
Lemma beam_transform_source (ap1 ap2 ap3 dsi : R) :
  np.matvec (beam_transform ap1 ap2 ap3) (0, dsi, 0)
  = (- sin ap1 * cos ap2 * dsi, cos ap1 * cos ap2 * dsi, sin ap2 * dsi).
Proof.
  unfold beam_transform, Beam.R1, Beam.R2, Beam.R3; cbn; pair_eq; ring.
Qed.

(** * The properties *)

Lemma nth_error_map_Some {A B : Type} (f : A -> B) (l : list A) (i : nat) (x : A) :
  nth_error l i = Some x -> nth_error (map f l) i = Some (f x).
Proof. intros H; now rewrite nth_error_map, H. Qed.

Lemma nth_error_combine {A B : Type} (a : list A) (b : list B) (i : nat) (x : A) (y : B) :
  nth_error a i = Some x -> nth_error b i = Some y ->
  nth_error (combine a b) i = Some (x, y).
Proof.
  revert b i; induction a as [|x' a IH]; intros [|y' b] [|i] Ha Hb;
    try discriminate; cbn in *; [congruence | auto].
Qed.

(** C1.  For a beam with five points and four face normals and a plane
    phantom with N skin cells, [check_hit] returns a list of N booleans, and
    entry [i] is [true] exactly when the vector from the apex (row 0 of
    [r]) to cell [i] has a non-positive dot product with each of the four
    face normals. *)
Theorem check_hit_plane_cone (self : Beam.t) (patient : Phantom.t) :
  beam_shape self ->
  Phantom.phantom_model patient = "plane"%string ->
  exists hits,
    Beam.check_hit self patient = Ok hits /\
    List.length hits = List.length (Phantom.r patient) /\
    forall i p,
      nth_error (Phantom.r patient) i = Some p ->
      exists h,
        nth_error hits i = Some h /\
        (h = true <->
         forall k, (k < 4)%nat ->
           np.dot (np.sub p (nth 0 (Beam.r self) vzero))
                  (nth k (Beam.N self) vzero) <= 0).
Proof.
  intros Hs Hm.
  eexists; split; [apply check_hit_plane; [now apply shape_apex | exact Hm]|].
  split; [now rewrite length_map|].
  intros i p Hp; eexists; split.
  - apply (nth_error_map_Some _ _ _ _ Hp).
  - destruct Hs as [_ HN]; rewrite cone_spec, HN; reflexivity.
Qed.

Lemma check_hit_plane_cone_witness :
  beam_shape scenario_beam /\
  Phantom.phantom_model (Phantom.mk [(0, 0, 0); (0, 0, 15)] [] "plane")
  = "plane"%string /\
  exists hits,
    Beam.check_hit scenario_beam (Phantom.mk [(0, 0, 0); (0, 0, 15)] [] "plane")
    = Ok hits /\
    List.length hits = 2%nat /\
    forall i p,
      nth_error [(0, 0, 0); (0, 0, 15)] i = Some p ->
      exists h,
        nth_error hits i = Some h /\
        (h = true <->
         forall k, (k < 4)%nat ->
           np.dot (np.sub p (nth 0 (Beam.r scenario_beam) vzero))
                  (nth k (Beam.N scenario_beam) vzero) <= 0).
Proof.
  assert (Hs : beam_shape scenario_beam) by (split; reflexivity).
  split; [exact Hs|]; split; [reflexivity|].
  exact (check_hit_plane_cone scenario_beam
           (Phantom.mk [(0, 0, 0); (0, 0, 15)] [] "plane") Hs eq_refl).
Defined.

(** C2.  For a phantom of any kind other than plane, with one outward
    normal per skin cell, [check_hit] marks cell [i] as hit exactly when it
    passes the four half-space tests and the vector from the apex to the
    cell has a non-positive dot product with the cell's normal; a cell
    whose dot product with its normal is positive is not hit, also inside
    the cone.  The same points tagged as a plane phantom get the cone test
    only. *)
Theorem check_hit_entrance (self : Beam.t) (patient : Phantom.t) :
  beam_shape self ->
  Phantom.phantom_model patient <> "plane"%string ->
  List.length (Phantom.n patient) = List.length (Phantom.r patient) ->
  let apex := nth 0 (Beam.r self) vzero in
  let in_cone p :=
    forall k, (k < 4)%nat ->
      np.dot (np.sub p apex) (nth k (Beam.N self) vzero) <= 0 in
  (exists hits,
     Beam.check_hit self patient = Ok hits /\
     List.length hits = List.length (Phantom.r patient) /\
     forall i p nrm,
       nth_error (Phantom.r patient) i = Some p ->
       nth_error (Phantom.n patient) i = Some nrm ->
       exists h,
         nth_error hits i = Some h /\
         (h = true <-> in_cone p /\ np.dot (np.sub p apex) nrm <= 0) /\
         (np.dot (np.sub p apex) nrm > 0 -> h = false)) /\
  (exists hits,
     Beam.check_hit self
       (Phantom.mk (Phantom.r patient) (Phantom.n patient) "plane") = Ok hits /\
     forall i p,
       nth_error (Phantom.r patient) i = Some p ->
       exists h, nth_error hits i = Some h /\ (h = true <-> in_cone p)).
Proof.
  intros Hs Hm Hlen apex in_cone.
  assert (Hcone : forall p, cone (Beam.N self) (np.sub p apex) = true <-> in_cone p).
  { intros p; destruct Hs as [_ HN]; rewrite cone_spec, HN; reflexivity. }
  split.
  - eexists; split; [apply check_hit_3d; [now apply shape_apex | exact Hm | exact Hlen]|].
    split; [rewrite length_map, length_combine; lia|].
    intros i p nrm Hp Hn; eexists; split.
    + apply nth_error_map_Some, (nth_error_combine _ _ _ _ _ Hp Hn).
    + cbn [fst snd]; fold apex; split.
      * now rewrite andb_true_iff, Hcone, Rleb_true.
      * intros Hgt; apply andb_false_iff; right; now apply Rleb_false.
  - eexists; split; [apply check_hit_plane; [now apply shape_apex | reflexivity]|].
    intros i p Hp; eexists; split.
    + apply (nth_error_map_Some _ _ _ _ Hp).
    + apply Hcone.
Qed.

Lemma check_hit_entrance_witness :
  beam_shape scenario_beam /\
  Phantom.phantom_model (Phantom.mk [(0, 0, 0)] [(0, 1, 0)] "human")
  <> "plane"%string /\
  List.length (Phantom.n (Phantom.mk [(0, 0, 0)] [(0, 1, 0)] "human"))
  = List.length (Phantom.r (Phantom.mk [(0, 0, 0)] [(0, 1, 0)] "human")) /\
  exists hits,
    Beam.check_hit scenario_beam (Phantom.mk [(0, 0, 0)] [(0, 1, 0)] "human")
    = Ok hits /\
    List.length hits = 1%nat.
Proof.
  assert (Hs : beam_shape scenario_beam) by (split; reflexivity).
  assert (Hm : Phantom.phantom_model (Phantom.mk [(0, 0, 0)] [(0, 1, 0)] "human")
               <> "plane"%string) by discriminate.
  split; [exact Hs|]; split; [exact Hm|]; split; [reflexivity|].
  destruct (check_hit_entrance scenario_beam
              (Phantom.mk [(0, 0, 0)] [(0, 1, 0)] "human") Hs Hm eq_refl)
    as [(hits & H & Hl & _) _].
  exists hits; split; [exact H | exact Hl].
Defined.

(** C3 (as stated, refuted).  With a primary angle of 90 degrees and a source
    to isocenter distance of 60, row 0 of the beam is (-60, 0, 0), not
    (0, 60, 0). *)
Lemma apex_rotated_counterexample :
  exists b,
    Beam.__init__
      [{| Ap1 := 90; Ap2 := 0; Ap3 := 0; DSI := 60;
          FS_long := 20; FS_lat := 10; DID := 100; DSL := 40 |}] 0 false
    = Ok b /\
    nth_error (Beam.r b) 0 = Some (-60, 0, 0) /\
    nth_error (Beam.r b) 0 <> Some (0, 60, 0).
Proof.
  eexists; split; [apply init_Ok; [lia | reflexivity | reflexivity]|].
  assert (H : forall b, nth_error (Beam.r b) 0 = Some (-60, 0, 0) ->
                        nth_error (Beam.r b) 0 <> Some (0, 60, 0)).
  { intros b ->; intros E; injection E as E1 E2; lra. }
  split; [|apply H].
  all: rewrite built_r; cbn [event_angles Ap1 Ap2 Ap3 map nth_error].
  all: unfold source; cbn [DSI].
  all: rewrite beam_transform_source, deg2rad_0.
  all: replace (np.deg2rad 90) with (PI / 2) by (unfold np.deg2rad; lra).
  all: rewrite cos_0, cos_PI2, sin_PI2, sin_0; do 2 f_equal; pair_eq; ring.
Qed.

(** C3 (amended).  For every event in the table, construction succeeds and
    row 0 of the beam is the source point (0, DSI, 0) under the beam
    transform, that is (-sin ap1 cos ap2 DSI, cos ap1 cos ap2 DSI,
    sin ap2 DSI) for the primary and secondary angles ap1, ap2 in radians;
    it is (0, DSI, 0) itself when both of these angles are zero, whatever
    the detector rotation, and in particular with [plot_setup]. *)
Theorem apex_is_rotated_source
  (d : DataFrame) (e : Z) (ps : bool) (row : EventRow) :
  (0 <= e)%Z -> nth_error d (Z.to_nat e) = Some row ->
  exists b,
    Beam.__init__ d e ps = Ok b /\
    (let '(ap1, ap2, ap3) := event_angles ps row in
     nth_error (Beam.r b) 0
     = Some (np.matvec (beam_transform ap1 ap2 ap3) (0, DSI row, 0)) /\
     nth_error (Beam.r b) 0
     = Some (- sin ap1 * cos ap2 * DSI row, cos ap1 * cos ap2 * DSI row,
             sin ap2 * DSI row)) /\
    (ps = true \/ (Ap1 row = 0 /\ Ap2 row = 0) ->
     nth_error (Beam.r b) 0 = Some (0, DSI row, 0)).
Proof.
  intros He Hrow; destruct (in_range_row _ _ _ Hrow) as [row0 Hrow0].
  exists (built ps row row0); split; [now apply init_Ok|].
  rewrite built_r.
  destruct (event_angles ps row) as [[ap1 ap2] ap3] eqn:Ea.
  cbn [map nth_error]; unfold source; split.
  - split; [reflexivity | now rewrite beam_transform_source].
  - intros Hz.
    assert (ap1 = 0 /\ ap2 = 0) as [-> ->].
    { unfold event_angles in Ea; destruct Hz as [-> | [H1 H2]].
      - now injection Ea as <- <- <-.
      - destruct ps; injection Ea as <- <- <-; auto.
        rewrite H1, H2; split; apply deg2rad_0. }
    rewrite beam_transform_source, cos_0, sin_0; do 2 f_equal; pair_eq; ring.
Qed.

Lemma apex_is_rotated_source_witness :
  (0 <= 0)%Z /\
  nth_error [scenario_row] (Z.to_nat 0) = Some scenario_row /\
  exists b,
    Beam.__init__ [scenario_row] 0 true = Ok b /\
    nth_error (Beam.r b) 0 = Some (0, 60, 0).
Proof.
  split; [lia|]; split; [reflexivity|].
  destruct (apex_is_rotated_source [scenario_row] 0 true scenario_row
              ltac:(lia) eq_refl) as (b & Hb & _ & H0).
  exists b; split; [exact Hb | apply H0; now left].
Defined.

Lemma detector_transform_00 (p : vec3) :
  np.matvec (detector_transform 0 0) p = p.
Proof.
  unfold detector_transform, Beam.R1, Beam.R2; rewrite cos_0, sin_0.
  destruct p as [[x y] z]; cbn; pair_eq; ring.
Qed.

Lemma built_det_r (ps : bool) (row row0 : EventRow) :
  Beam.det_r (built ps row row0)
  = let '(ap1, ap2, ap3) := event_angles ps row in
    map (np.matvec (detector_transform ap1 ap2))
        (det_corners (DSL row0) (DID row)).
Proof. unfold built; now destruct (event_angles ps row) as [[ap1 ap2] ap3]. Qed.

(** C4 (the code at the failing input).  In a table of two events with
    detector side lengths 40 and 30, the detector built for event 1 is the
    unit cuboid scaled by 40, the side length of event 0, and not by 30. *)
Theorem detector_width_of_first_event :
  let row1 := {| Ap1 := 0; Ap2 := 0; Ap3 := 0; DSI := 60;
                 FS_long := 20; FS_lat := 10; DID := 100; DSL := 30 |} in
  exists b,
    Beam.__init__ [scenario_row; row1] 1 false = Ok b /\
    Beam.det_r b = det_corners (DSL scenario_row) (DID row1) /\
    Beam.det_r b <> det_corners (DSL row1) (DID row1).
Proof.
  intros row1.
  exists (built false row1 scenario_row).
  split; [apply init_Ok; [lia | reflexivity | reflexivity]|].
  assert (H : Beam.det_r (built false row1 scenario_row)
              = det_corners (DSL scenario_row) (DID row1)).
  { rewrite built_det_r; cbn [event_angles row1 Ap1 Ap2 Ap3].
    rewrite deg2rad_0; unfold det_corners; cbn [map].
    now rewrite !detector_transform_00. }
  split; [exact H|].
  rewrite H; unfold det_corners; cbn [DSL DID scenario_row row1].
  intros E; injection E as E _; lra.
Qed.

(** C5 (as stated, refuted).  An event with a zero longitudinal collimation
    is accepted: construction returns a beam, and the hit test on it
    returns a result. *)
Lemma zero_collimation_counterexample :
  exists b hits,
    Beam.__init__
      [{| Ap1 := 0; Ap2 := 0; Ap3 := 0; DSI := 60;
          FS_long := 0; FS_lat := 10; DID := 100; DSL := 40 |}] 0 false
    = Ok b /\
    Beam.check_hit b (Phantom.mk [(0, 0, 0)] [] "plane") = Ok hits.
Proof.
  eexists; eexists; split; [apply init_Ok; [lia | reflexivity | reflexivity]|].
  apply check_hit_plane; [|reflexivity].
  apply shape_apex, built_shape.
Qed.

(** C5 (amended).  Nothing is validated at entry.  Construction raises only
    [KeyError], exactly when the event label is not in the table, and
    returns a beam otherwise, whatever the collimation, the distances and
    the angles.  The hit test on a constructed beam treats every kind other
    than plane alike; it raises only [IndexError], exactly when the kind is
    not plane and the numbers of normals and of skin cells differ, and
    returns one boolean per skin cell otherwise. *)
Theorem errors_raised (d : DataFrame) (e : Z) (ps : bool) (patient : Phantom.t) :
  match Beam.__init__ d e ps with
  | Raise ex =>
      ex = KeyError /\ ((e < 0)%Z \/ (Z.of_nat (List.length d) <= e)%Z)
  | Ok self =>
      (0 <= e < Z.of_nat (List.length d))%Z /\
      match Beam.check_hit self patient with
      | Ok hits =>
          List.length hits = List.length (Phantom.r patient) /\
          (Phantom.phantom_model patient = "plane"%string \/
           List.length (Phantom.n patient) = List.length (Phantom.r patient))
      | Raise ex =>
          ex = IndexError /\
          Phantom.phantom_model patient <> "plane"%string /\
          List.length (Phantom.n patient) <> List.length (Phantom.r patient)
      end
  end.
Proof.
  destruct (init_cases d e ps) as [[He ->]|(row & row0 & He & Hr & _ & ->)];
    [now split|].
  split.
  { split; [exact He|].
    assert (Z.to_nat e < List.length d)%nat
      by (apply nth_error_Some; congruence).
    lia. }
  pose proof (shape_apex _ (built_shape ps row row0)) as Ha.
  destruct (string_dec (Phantom.phantom_model patient) "plane") as [Hm|Hm].
  - rewrite (check_hit_plane _ _ _ Ha Hm), length_map; auto.
  - destruct (Nat.eq_dec (List.length (Phantom.n patient))
                         (List.length (Phantom.r patient))) as [Hl|Hl].
    + rewrite (check_hit_3d _ _ _ Ha Hm Hl), length_map, length_combine.
      split; [lia | now right].
    + now rewrite (check_hit_3d_mismatch _ _ _ Ha Hm Hl).
Qed.

(** C6.  For every angle triple, the three elemental rotation matrices, the
    beam transform and the detector transform satisfy R . R^T = identity. *)
Theorem rotations_orthonormal (ap1 ap2 ap3 : R) :
  orthonormal (Beam.R1 ap1) /\
  orthonormal (Beam.R2 ap2) /\
  orthonormal (Beam.R3 ap3) /\
  orthonormal (beam_transform ap1 ap2 ap3) /\
  orthonormal (detector_transform ap1 ap2).
Proof.
  repeat split.
  - apply rotation_R1.
  - apply rotation_R2.
  - apply rotation_R3.
  - apply rotation_beam_transform.
  - apply rotation_detector_transform.
Qed.

(** C7.  For every event in the table, construction succeeds and face
    normal [k] of the beam is the cross product of edge [k] and edge
    [k+1 mod 4], where edge [k] is the vector from the apex (row 0) to base
    corner [k] (row [k+1]) divided by its norm, a unit vector whenever the
    corner differs from the apex. *)
Theorem face_normals_cross
  (d : DataFrame) (e : Z) (ps : bool) (row : EventRow) :
  (0 <= e)%Z -> nth_error d (Z.to_nat e) = Some row ->
  exists b,
    Beam.__init__ d e ps = Ok b /\
    forall k, (k < 4)%nat ->
      nth_error (Beam.N b) k
      = Some (np.cross (edge (Beam.r b) k) (edge (Beam.r b) ((k + 1) mod 4))) /\
      (nth (S k) (Beam.r b) vzero <> nth 0 (Beam.r b) vzero ->
       np.norm (edge (Beam.r b) k) = 1).
Proof.
  intros He Hrow; destruct (in_range_row _ _ _ Hrow) as [row0 Hrow0].
  exists (built ps row row0); split; [now apply init_Ok|].
  intros k Hk; split.
  - unfold built; destruct (event_angles ps row) as [[ap1 ap2] ap3].
    cbn [Beam.N Beam.r].
    destruct k as [|[|[|[|k]]]]; try lia; reflexivity.
  - intros Hne; apply norm_normalize.
    intros Hz; apply (proj1 (sub_zero_iff _ _)) in Hz; contradiction.
Qed.

Lemma face_normals_cross_witness :
  (0 <= 0)%Z /\
  nth_error [scenario_row] (Z.to_nat 0) = Some scenario_row /\
  exists b,
    Beam.__init__ [scenario_row] 0 false = Ok b /\
    nth_error (Beam.N b) 3
    = Some (np.cross (edge (Beam.r b) 3) (edge (Beam.r b) 0)).
Proof.
  split; [lia|]; split; [reflexivity|].
  destruct (face_normals_cross [scenario_row] 0 false scenario_row
              ltac:(lia) eq_refl) as (b & Hb & HN).
  exists b; split; [exact Hb | exact (proj1 (HN 3%nat ltac:(lia)))].
Defined.

Lemma event_angles_scenario (ps : bool) :
  event_angles ps scenario_row = (0, 0, 0).
Proof.
  destruct ps; [reflexivity|].
  unfold event_angles, scenario_row; cbn [Ap1 Ap2 Ap3]; now rewrite deg2rad_0.
Qed.

Lemma scenario_r (ps : bool) :
  Beam.r (built ps scenario_row scenario_row)
  = source scenario_row :: corners scenario_row.
Proof.
  rewrite built_r, event_angles_scenario.
  unfold corners; cbn [map]; now rewrite !beam_transform_000.
Qed.

Lemma scenario_N (ps : bool) :
  Beam.N (built ps scenario_row scenario_row)
  = let r := source scenario_row :: corners scenario_row in
    [np.cross (edge r 0) (edge r 1); np.cross (edge r 1) (edge r 2);
     np.cross (edge r 2) (edge r 3); np.cross (edge r 3) (edge r 0)].
Proof.
  pose proof (scenario_r ps) as Hr; unfold built in *.
  destruct (event_angles ps scenario_row) as [[ap1 ap2] ap3].
  cbn [Beam.r Beam.N] in *; now rewrite Hr.
Qed.

Ltac nonzero :=
  cbn [np.sub]; unfold vzero; intros E; injection E; intros; lra.

Ltac halfspace :=
  rewrite halfspace_sign by nonzero;
  first [ apply Rleb_true; cbn [np.dot np.cross np.sub]; lra
        | apply Rleb_false; cbn [np.dot np.cross np.sub]; lra ].

(** C8.  For the event with longitudinal collimation 20, lateral
    collimation 10, source to detector distance 100, source to isocenter
    distance 60 and all angles zero (read from the table or forced by
    [plot_setup]), a plane phantom with the single skin cell (0, 0, 0) is
    hit, and one with the single skin cell (0, 0, 15) is not. *)
Theorem scenario_A_B (ps : bool) :
  exists b,
    Beam.__init__ [scenario_row] 0 ps = Ok b /\
    Beam.check_hit b (Phantom.mk [(0, 0, 0)] [] "plane") = Ok [true] /\
    Beam.check_hit b (Phantom.mk [(0, 0, 15)] [] "plane") = Ok [false].
Proof.
  exists (built ps scenario_row scenario_row).
  split; [apply init_Ok; [lia | reflexivity | reflexivity]|].
  assert (Ha : nth_error (Beam.r (built ps scenario_row scenario_row)) 0
               = Some (0, 60, 0)) by (now rewrite scenario_r).
  rewrite (check_hit_plane _ (Phantom.mk [(0, 0, 0)] [] "plane") _ Ha eq_refl).
  rewrite (check_hit_plane _ (Phantom.mk [(0, 0, 15)] [] "plane") _ Ha eq_refl).
  rewrite scenario_N.
  cbn [Phantom.r map]; unfold cone, edge, corners, source, scenario_row.
  cbn [nth forallb DSI FS_long FS_lat DID]; split; do 2 f_equal.
  - repeat (apply andb_true_iff; split); try reflexivity; halfspace.
  - apply andb_false_iff; right.
    apply andb_false_iff; right.
    apply andb_false_iff; right.
    apply andb_false_iff; left; halfspace.
Qed.

(** C9.  On a store that holds a beam at [self] and a phantom at [patient],
    a call of [check_hit] returns the value determined by the two objects
    alone; it changes no object that was in the store, so every field of
    the beam ([r], [ijk], [N], [det_r], [det_ijk]) and of the phantom ([r],
    [n], [phantom_model]) is as before; and a second call, on the store the
    first one left, returns the same result. *)
Theorem check_hit_deterministic_no_mutation
  (s : Store.store) (self patient : Store.ref) (b : Beam.t) (p : Phantom.t) :
  Store.beam_at s self = Some b ->
  Store.phantom_at s patient = Some p ->
  let res := fst (Store.check_hit self patient s) in
  let s' := snd (Store.check_hit self patient s) in
  res = Beam.check_hit b p /\
  Store.beam_at s' self = Some b /\
  Store.phantom_at s' patient = Some p /\
  (forall l o, nth_error s l = Some o -> nth_error s' l = Some o) /\
  fst (Store.check_hit self patient s') = res.
Proof.
  intros Hb Hp res s'.
  destruct (StoreFacts.check_hit_run s self patient b p Hb Hp) as [ex Hrun].
  assert (Hb' : Store.beam_at s' self = Some b).
  { unfold s'; rewrite Hrun; now apply StoreFacts.beam_at_app. }
  assert (Hp' : Store.phantom_at s' patient = Some p).
  { unfold s'; rewrite Hrun; now apply StoreFacts.phantom_at_app. }
  destruct (StoreFacts.check_hit_run s' self patient b p Hb' Hp') as [ex' Hrun'].
  repeat split; auto.
  - unfold res; now rewrite Hrun.
  - intros l o Hl; unfold s'; rewrite Hrun; now apply StoreFacts.lookup_old.
  - unfold res; now rewrite Hrun', Hrun.
Qed.

Lemma check_hit_deterministic_no_mutation_witness :
  Store.beam_at example_store 5%nat = Some scenario_beam /\
  Store.phantom_at example_store 8%nat
  = Some (Phantom.mk [(0, 0, 0); (0, -20, 0)] [(0, 1, 0); (0, -1, 0)]
                     "cylinder") /\
  let res := fst (Store.check_hit 5%nat 8%nat example_store) in
  let s' := snd (Store.check_hit 5%nat 8%nat example_store) in
  res = Beam.check_hit scenario_beam
          (Phantom.mk [(0, 0, 0); (0, -20, 0)] [(0, 1, 0); (0, -1, 0)]
                      "cylinder") /\
  Store.beam_at s' 5%nat = Some scenario_beam /\
  Store.phantom_at s' 8%nat
  = Some (Phantom.mk [(0, 0, 0); (0, -20, 0)] [(0, 1, 0); (0, -1, 0)]
                     "cylinder") /\
  (forall l o, nth_error example_store l = Some o -> nth_error s' l = Some o) /\
  fst (Store.check_hit 5%nat 8%nat s') = res.
Proof.
  split; [reflexivity|]; split; [reflexivity|].
  exact (check_hit_deterministic_no_mutation example_store 5%nat 8%nat
           scenario_beam _ eq_refl eq_refl).
Defined.

(** C10.  For every event in the table, construction succeeds and the apex
    (row 0 of the beam) has Euclidean norm |DSI|: the source lies on the
    sphere of radius DSI about the isocenter, for all angles. *)
Theorem apex_on_sphere
  (d : DataFrame) (e : Z) (ps : bool) (row : EventRow) :
  (0 <= e)%Z -> nth_error d (Z.to_nat e) = Some row ->
  exists b apex,
    Beam.__init__ d e ps = Ok b /\
    nth_error (Beam.r b) 0 = Some apex /\
    np.norm apex = Rabs (DSI row).
Proof.
  intros He Hrow; destruct (in_range_row _ _ _ Hrow) as [row0 Hrow0].
  destruct (event_angles ps row) as [[ap1 ap2] ap3] eqn:Ea.
  exists (built ps row row0), (np.matvec (beam_transform ap1 ap2 ap3) (source row)).
  split; [now apply init_Ok|].
  rewrite built_r, Ea.
  cbn [map nth_error]; split; [reflexivity|].
  rewrite rotation_norm by apply rotation_beam_transform.
  unfold source, np.norm.
  replace (0 * 0 + DSI row * DSI row + 0 * 0) with (Rsqr (DSI row))
    by (unfold Rsqr; ring).
  apply sqrt_Rsqr_abs.
Qed.

Lemma apex_on_sphere_witness :
  (0 <= 0)%Z /\
  nth_error [scenario_row] (Z.to_nat 0) = Some scenario_row /\
  exists b apex,
    Beam.__init__ [scenario_row] 0 false = Ok b /\
    nth_error (Beam.r b) 0 = Some apex /\
    np.norm apex = Rabs (DSI scenario_row).
Proof.
  split; [lia|]; split; [reflexivity|].
  exact (apex_on_sphere [scenario_row] 0 false scenario_row ltac:(lia) eq_refl).
Defined.

(** * Further properties of the constructed geometry *)

(** Componentwise sum and scaling of rows, and the sum of four rows (four
    times their centroid). *)
Definition vadd (a b : vec3) : vec3 :=
  let '(a1, a2, a3) := a in
  let '(b1, b2, b3) := b in
  (a1 + b1, a2 + b2, a3 + b3).

Definition vscale (t : R) (a : vec3) : vec3 :=
  let '(a1, a2, a3) := a in (t * a1, t * a2, t * a3).

Definition sum4 (a b c d : vec3) : vec3 := vadd (vadd a b) (vadd c d).

(** The two transforms for an event's row. *)
Definition event_beam_transform (plot_setup : bool) (row : EventRow) : mat3 :=
  let '(ap1, ap2, ap3) := event_angles plot_setup row in
  beam_transform ap1 ap2 ap3.

Definition event_detector_transform (plot_setup : bool) (row : EventRow)
  : mat3 :=
  let '(ap1, ap2, ap3) := event_angles plot_setup row in
  detector_transform ap1 ap2.

Lemma built_r_map (ps : bool) (row row0 : EventRow) :
  Beam.r (built ps row row0)
  = map (np.matvec (event_beam_transform ps row)) (source row :: corners row).
Proof.
  rewrite built_r; unfold event_beam_transform.
  now destruct (event_angles ps row) as [[ap1 ap2] ap3].
Qed.

Lemma built_det_r_map (ps : bool) (row row0 : EventRow) :
  Beam.det_r (built ps row row0)
  = map (np.matvec (event_detector_transform ps row))
        (det_corners (DSL row0) (DID row)).
Proof.
  rewrite built_det_r; unfold event_detector_transform.
  now destruct (event_angles ps row) as [[ap1 ap2] ap3].
Qed.

Lemma rotation_event_beam (ps : bool) (row : EventRow) :
  rotation (event_beam_transform ps row).
Proof.
  unfold event_beam_transform.
  destruct (event_angles ps row) as [[ap1 ap2] ap3].
  apply rotation_beam_transform.
Qed.

Lemma rotation_event_detector (ps : bool) (row : EventRow) :
  rotation (event_detector_transform ps row).
Proof.
  unfold event_detector_transform.
  destruct (event_angles ps row) as [[ap1 ap2] ap3].
  apply rotation_detector_transform.
Qed.

Lemma matvec_sub (M : mat3) (p q : vec3) :
  np.matvec M (np.sub p q) = np.sub (np.matvec M p) (np.matvec M q).
Proof. mat_eq. Qed.

Lemma matvec_vadd (M : mat3) (p q : vec3) :
  np.matvec M (vadd p q) = vadd (np.matvec M p) (np.matvec M q).
Proof. mat_eq. Qed.

Lemma matvec_vscale (M : mat3) (t : R) (p : vec3) :
  np.matvec M (vscale t p) = vscale t (np.matvec M p).
Proof. mat_eq. Qed.

Lemma matvec_sum4 (M : mat3) (a b c d : vec3) :
  np.matvec M (sum4 a b c d)
  = sum4 (np.matvec M a) (np.matvec M b) (np.matvec M c) (np.matvec M d).
Proof. unfold sum4; now rewrite !matvec_vadd. Qed.

Lemma norm_z (x y z : R) : x = 0 -> y = 0 -> np.norm (x, y, z) = Rabs z.
Proof.
  intros -> ->; unfold np.norm.
  replace (0 * 0 + 0 * 0 + z * z) with (Rsqr z) by (unfold Rsqr; ring).
  apply sqrt_Rsqr_abs.
Qed.

Lemma norm_x (x y z : R) : y = 0 -> z = 0 -> np.norm (x, y, z) = Rabs x.
Proof.
  intros -> ->; unfold np.norm.
  replace (x * x + 0 * 0 + 0 * 0) with (Rsqr x) by (unfold Rsqr; ring).
  apply sqrt_Rsqr_abs.
Qed.

Lemma norm_y (x y z : R) : x = 0 -> z = 0 -> np.norm (x, y, z) = Rabs y.
Proof.
  intros -> ->; unfold np.norm.
  replace (0 * 0 + y * y + 0 * 0) with (Rsqr y) by (unfold Rsqr; ring).
  apply sqrt_Rsqr_abs.
Qed.

Ltac abs_eq :=
  first [ f_equal; lra | rewrite <- Rabs_Ropp; f_equal; lra ].

(** The rotated difference of two unrotated points. *)
Ltac unrotate_norm H :=
  rewrite <- matvec_sub, (rotation_norm _ _ H); cbn [np.sub].

Ltac unrotate_dot H :=
  rewrite <- !matvec_sub, (rotation_dot _ _ _ H); cbn [np.sub np.dot].

(** X1.  For every event in the table the four edges of the beam, from the
    apex to the base corners, have the same length
    sqrt((FS_long/2)^2 + (DID + DSI)^2 + (FS_lat/2)^2), whatever the
    angles. *)
Theorem beam_edges_length
  (d : DataFrame) (e : Z) (ps : bool) (row : EventRow) :
  (0 <= e)%Z -> nth_error d (Z.to_nat e) = Some row ->
  exists b,
    Beam.__init__ d e ps = Ok b /\
    forall k, (k < 4)%nat ->
      np.norm (np.sub (nth (S k) (Beam.r b) vzero) (nth 0 (Beam.r b) vzero))
      = sqrt (FS_long row / 2 * (FS_long row / 2)
              + (DID row + DSI row) * (DID row + DSI row)
              + FS_lat row / 2 * (FS_lat row / 2)).
Proof.
  intros He Hrow; destruct (in_range_row _ _ _ Hrow) as [row0 Hrow0].
  exists (built ps row row0); split; [now apply init_Ok|].
  pose proof (rotation_event_beam ps row) as HM.
  intros k Hk; rewrite built_r_map; unfold corners, source.
  destruct k as [|[|[|[|k]]]]; try lia; cbn [map nth];
    unrotate_norm HM; unfold np.norm; f_equal; lra.
Qed.

Lemma beam_edges_length_witness :
  (0 <= 0)%Z /\
  nth_error [scenario_row] (Z.to_nat 0) = Some scenario_row /\
  exists b,
    Beam.__init__ [scenario_row] 0 false = Ok b /\
    forall k, (k < 4)%nat ->
      np.norm (np.sub (nth (S k) (Beam.r b) vzero) (nth 0 (Beam.r b) vzero))
      = sqrt (FS_long scenario_row / 2 * (FS_long scenario_row / 2)
              + (DID scenario_row + DSI scenario_row)
                * (DID scenario_row + DSI scenario_row)
              + FS_lat scenario_row / 2 * (FS_lat scenario_row / 2)).
Proof.
  split; [lia|]; split; [reflexivity|].
  exact (beam_edges_length [scenario_row] 0 false scenario_row
           ltac:(lia) eq_refl).
Defined.

(** The base of the beam is a rectangle with sides |FS_lat| and |FS_long|,
    perpendicular to the line from the isocenter (the origin) to the
    apex. *)
Definition base_rectangle (b : Beam.t) (row : EventRow) : Prop :=
  let r k := nth k (Beam.r b) vzero in
  let side1 := np.sub (r 1%nat) (r 2%nat) in
  let side2 := np.sub (r 2%nat) (r 3%nat) in
  let side3 := np.sub (r 3%nat) (r 4%nat) in
  let side4 := np.sub (r 4%nat) (r 1%nat) in
  (np.norm side1 = Rabs (FS_lat row) /\ np.norm side2 = Rabs (FS_long row) /\
   np.norm side3 = Rabs (FS_lat row) /\ np.norm side4 = Rabs (FS_long row)) /\
  (np.dot side1 side2 = 0 /\ np.dot side2 side3 = 0 /\
   np.dot side3 side4 = 0 /\ np.dot side4 side1 = 0) /\
  (np.dot side1 (r 0%nat) = 0 /\ np.dot side2 (r 0%nat) = 0).

(** X2.  For every event in the table, the four base corners of the beam
    form a rectangle with side lengths |FS_lat| and |FS_long| whose plane is
    perpendicular to the line from the isocenter to the source, whatever
    the angles. *)
Theorem beam_base_rectangle
  (d : DataFrame) (e : Z) (ps : bool) (row : EventRow) :
  (0 <= e)%Z -> nth_error d (Z.to_nat e) = Some row ->
  exists b, Beam.__init__ d e ps = Ok b /\ base_rectangle b row.
Proof.
  intros He Hrow; destruct (in_range_row _ _ _ Hrow) as [row0 Hrow0].
  exists (built ps row row0); split; [now apply init_Ok|].
  pose proof (rotation_event_beam ps row) as HM.
  unfold base_rectangle; rewrite built_r_map; unfold corners, source.
  cbn [map nth]; repeat split.
  1-4: unrotate_norm HM.
  1, 3: rewrite norm_z by lra; abs_eq.
  1, 2: rewrite norm_x by lra; abs_eq.
  1-4: unrotate_dot HM; lra.
  1-2: rewrite <- matvec_sub, (rotation_dot _ _ _ HM); cbn [np.sub np.dot]; lra.
Qed.

Lemma beam_base_rectangle_witness :
  (0 <= 0)%Z /\
  nth_error [scenario_row] (Z.to_nat 0) = Some scenario_row /\
  exists b,
    Beam.__init__ [scenario_row] 0 false = Ok b /\ base_rectangle b scenario_row.
Proof.
  split; [lia|]; split; [reflexivity|].
  exact (beam_base_rectangle [scenario_row] 0 false scenario_row
           ltac:(lia) eq_refl).
Defined.

(** X3.  For every event in the table, the apex, the isocenter (the origin)
    and the centre of the beam's base lie on one line: DSI times the sum of
    the four base corners equals -4 DID times the apex. *)
Theorem beam_axis_through_isocenter
  (d : DataFrame) (e : Z) (ps : bool) (row : EventRow) :
  (0 <= e)%Z -> nth_error d (Z.to_nat e) = Some row ->
  exists b,
    Beam.__init__ d e ps = Ok b /\
    let r k := nth k (Beam.r b) vzero in
    vscale (DSI row) (sum4 (r 1%nat) (r 2%nat) (r 3%nat) (r 4%nat))
    = vscale (-4 * DID row) (r 0%nat).
Proof.
  intros He Hrow; destruct (in_range_row _ _ _ Hrow) as [row0 Hrow0].
  exists (built ps row row0); split; [now apply init_Ok|].
  rewrite built_r_map; unfold corners, source; cbn [map nth].
  rewrite <- matvec_sum4, <- !matvec_vscale; f_equal.
  cbn [sum4 vadd vscale]; pair_eq; lra.
Qed.

Lemma beam_axis_through_isocenter_witness :
  (0 <= 0)%Z /\
  nth_error [scenario_row] (Z.to_nat 0) = Some scenario_row /\
  exists b,
    Beam.__init__ [scenario_row] 0 false = Ok b /\
    let r k := nth k (Beam.r b) vzero in
    vscale (DSI scenario_row) (sum4 (r 1%nat) (r 2%nat) (r 3%nat) (r 4%nat))
    = vscale (-4 * DID scenario_row) (r 0%nat).
Proof.
  split; [lia|]; split; [reflexivity|].
  exact (beam_axis_through_isocenter [scenario_row] 0 false scenario_row
           ltac:(lia) eq_refl).
Defined.

Lemma Rabs_fifth (x : R) : Rabs (-1.2 * x - -1.0 * x) = 0.2 * Rabs x.
Proof.
  replace (-1.2 * x - -1.0 * x) with (- (0.2 * x)) by lra.
  rewrite Rabs_Ropp, Rabs_mult; f_equal.
  apply Rabs_pos_eq; lra.
Qed.

(** The detector is a cuboid: its front face (rows 0 to 3) is a square of
    side [w], and its back face (rows 4 to 7) is the front face moved by
    one vector of length [depth] that is perpendicular to the front
    face. *)
Definition cuboid (q : nat -> vec3) (w depth : R) : Prop :=
  let side1 := np.sub (q 0%nat) (q 1%nat) in
  let side2 := np.sub (q 1%nat) (q 2%nat) in
  let side3 := np.sub (q 2%nat) (q 3%nat) in
  let side4 := np.sub (q 3%nat) (q 0%nat) in
  let back := np.sub (q 4%nat) (q 0%nat) in
  (np.norm side1 = w /\ np.norm side2 = w /\
   np.norm side3 = w /\ np.norm side4 = w) /\
  (np.dot side1 side2 = 0 /\ np.dot side2 side3 = 0 /\
   np.dot side3 side4 = 0 /\ np.dot side4 side1 = 0) /\
  (forall k, (k < 4)%nat -> np.sub (q (k + 4)%nat) (q k) = back) /\
  np.norm back = depth /\
  np.dot back side1 = 0 /\ np.dot back side2 = 0.

(** X4.  For every event in the table, the eight detector points form a
    cuboid whose front face is a square of side |DSL[0]| and whose depth is
    0.2 |DID|, whatever the angles. *)
Theorem detector_is_cuboid
  (d : DataFrame) (e : Z) (ps : bool) (row row0 : EventRow) :
  (0 <= e)%Z -> nth_error d (Z.to_nat e) = Some row ->
  nth_error d 0 = Some row0 ->
  exists b,
    Beam.__init__ d e ps = Ok b /\
    cuboid (fun k => nth k (Beam.det_r b) vzero)
           (Rabs (DSL row0)) (0.2 * Rabs (DID row)).
Proof.
  intros He Hrow Hrow0.
  exists (built ps row row0); split; [now apply init_Ok|].
  pose proof (rotation_event_detector ps row) as HM.
  unfold cuboid; rewrite built_det_r_map; unfold det_corners.
  cbn [map nth]; repeat split.
  1-4: unrotate_norm HM.
  1, 3: rewrite norm_z by lra; abs_eq.
  1, 2: rewrite norm_x by lra; abs_eq.
  1-4: unrotate_dot HM; lra.
  - intros k Hk; destruct k as [|[|[|[|k]]]]; try lia; cbn [Nat.add nth];
      rewrite <- !matvec_sub; f_equal; cbn [np.sub]; pair_eq; lra.
  - unrotate_norm HM; rewrite norm_y by lra; apply Rabs_fifth.
  - unrotate_dot HM; lra.
  - unrotate_dot HM; lra.
Qed.

Lemma detector_is_cuboid_witness :
  (0 <= 0)%Z /\
  nth_error [scenario_row] (Z.to_nat 0) = Some scenario_row /\
  nth_error [scenario_row] 0 = Some scenario_row /\
  exists b,
    Beam.__init__ [scenario_row] 0 false = Ok b /\
    cuboid (fun k => nth k (Beam.det_r b) vzero)
           (Rabs (DSL scenario_row)) (0.2 * Rabs (DID scenario_row)).
Proof.
  split; [lia|]; split; [reflexivity|]; split; [reflexivity|].
  exact (detector_is_cuboid [scenario_row] 0 false scenario_row scenario_row
           ltac:(lia) eq_refl eq_refl).
Defined.

Lemma beam_detector_axis (ap1 ap2 ap3 y : R) :
  np.matvec (beam_transform ap1 ap2 ap3) (0, y, 0)
  = np.matvec (detector_transform ap1 ap2) (0, y, 0).
Proof.
  unfold beam_transform, detector_transform; rewrite matvec_matmul3; f_equal.
  unfold Beam.R3; cbn; pair_eq; ring.
Qed.

Lemma event_beam_detector_axis (ps : bool) (row : EventRow) (y : R) :
  np.matvec (event_beam_transform ps row) (0, y, 0)
  = np.matvec (event_detector_transform ps row) (0, y, 0).
Proof.
  unfold event_beam_transform, event_detector_transform.
  destruct (event_angles ps row) as [[ap1 ap2] ap3]; apply beam_detector_axis.
Qed.

(** X5.  For every event in the table and for all three angles, the centre
    of the detector's front face is the centre of the beam's base: the
    four front corners of the detector and the four base corners of the
    beam have the same sum. *)
Theorem detector_centred_on_beam
  (d : DataFrame) (e : Z) (ps : bool) (row : EventRow) :
  (0 <= e)%Z -> nth_error d (Z.to_nat e) = Some row ->
  exists b,
    Beam.__init__ d e ps = Ok b /\
    let r k := nth k (Beam.r b) vzero in
    let q k := nth k (Beam.det_r b) vzero in
    sum4 (q 0%nat) (q 1%nat) (q 2%nat) (q 3%nat)
    = sum4 (r 1%nat) (r 2%nat) (r 3%nat) (r 4%nat).
Proof.
  intros He Hrow; destruct (in_range_row _ _ _ Hrow) as [row0 Hrow0].
  exists (built ps row row0); split; [now apply init_Ok|].
  rewrite built_r_map, built_det_r_map; unfold corners, det_corners.
  cbn [map nth]; rewrite <- !matvec_sum4.
  transitivity (np.matvec (event_detector_transform ps row) (0, -4 * DID row, 0)).
  - f_equal; cbn [sum4 vadd]; pair_eq; lra.
  - rewrite <- event_beam_detector_axis; f_equal; cbn [sum4 vadd]; pair_eq; lra.
Qed.

Lemma detector_centred_on_beam_witness :
  (0 <= 0)%Z /\
  nth_error [scenario_row] (Z.to_nat 0) = Some scenario_row /\
  exists b,
    Beam.__init__ [scenario_row] 0 false = Ok b /\
    let r k := nth k (Beam.r b) vzero in
    let q k := nth k (Beam.det_r b) vzero in
    sum4 (q 0%nat) (q 1%nat) (q 2%nat) (q 3%nat)
    = sum4 (r 1%nat) (r 2%nat) (r 3%nat) (r 4%nat).
Proof.
  split; [lia|]; split; [reflexivity|].
  exact (detector_centred_on_beam [scenario_row] 0 false scenario_row
           ltac:(lia) eq_refl).
Defined.

(** An event's row with another detector rotation angle. *)
Definition with_Ap3 (row : EventRow) (a : R) : EventRow :=
  {| Ap1 := Ap1 row; Ap2 := Ap2 row; Ap3 := a; DSI := DSI row;
     FS_long := FS_long row; FS_lat := FS_lat row; DID := DID row;
     DSL := DSL row |}.

(** X6.  The detector rotation angle moves neither the detector nor the
    source: replacing the Ap3 column of the table by any other values
    leaves the outcome of the constructor unchanged as to success, the
    detector points and the apex. *)
Theorem detector_rotation_independence
  (d : DataFrame) (f : EventRow -> R) (e : Z) (ps : bool) :
  match Beam.__init__ d e ps,
        Beam.__init__ (map (fun row => with_Ap3 row (f row)) d) e ps with
  | Ok b, Ok b' =>
      Beam.det_r b' = Beam.det_r b /\
      nth_error (Beam.r b') 0 = nth_error (Beam.r b) 0
  | Raise ex, Raise ex' => ex' = ex
  | _, _ => False
  end.
Proof.
  set (d' := map (fun row => with_Ap3 row (f row)) d).
  destruct (init_cases d e ps) as [[He ->]|(row & row0 & He & Hr & Hr0 & ->)].
  - rewrite init_KeyError; [reflexivity|].
    unfold d'; now rewrite length_map.
  - rewrite (init_Ok d' e ps (with_Ap3 row (f row)) (with_Ap3 row0 (f row0)))
      by (auto; unfold d'; rewrite nth_error_map; (rewrite Hr || rewrite Hr0);
          reflexivity).
    rewrite !built_det_r_map, !built_r_map; cbn [map nth_error].
    unfold source; rewrite !event_beam_detector_axis.
    unfold event_detector_transform, event_angles.
    destruct ps; cbn [with_Ap3 Ap1 Ap2 DSL DID DSI]; auto.
Qed.

(** X7.  With [plot_setup] the beam and the detector are not rotated: for
    every event in the table the apex is (0, DSI, 0), the base corners are
    (+-FS_long/2, -DID, +-FS_lat/2) and the detector is the unit cuboid
    scaled by DSL[0] and DID. *)
Theorem plot_setup_unrotated
  (d : DataFrame) (e : Z) (row row0 : EventRow) :
  (0 <= e)%Z -> nth_error d (Z.to_nat e) = Some row ->
  nth_error d 0 = Some row0 ->
  exists b,
    Beam.__init__ d e true = Ok b /\
    Beam.r b = [(0, DSI row, 0);
                (0.5 * FS_long row, -1.0 * DID row, 0.5 * FS_lat row);
                (0.5 * FS_long row, -1.0 * DID row, -0.5 * FS_lat row);
                (-0.5 * FS_long row, -1.0 * DID row, -0.5 * FS_lat row);
                (-0.5 * FS_long row, -1.0 * DID row, 0.5 * FS_lat row)] /\
    Beam.det_r b = det_corners (DSL row0) (DID row).
Proof.
  intros He Hrow Hrow0.
  exists (built true row row0); split; [now apply init_Ok|].
  rewrite built_r, built_det_r; cbn [event_angles].
  unfold source, corners, det_corners; cbn [map].
  now rewrite !beam_transform_000, !detector_transform_00.
Qed.

Lemma plot_setup_unrotated_witness :
  (0 <= 0)%Z /\
  nth_error [scenario_row] (Z.to_nat 0) = Some scenario_row /\
  nth_error [scenario_row] 0 = Some scenario_row /\
  exists b,
    Beam.__init__ [scenario_row] 0 true = Ok b /\
    Beam.det_r b = det_corners (DSL scenario_row) (DID scenario_row).
Proof.
  split; [lia|]; split; [reflexivity|]; split; [reflexivity|].
  destruct (plot_setup_unrotated [scenario_row] 0 scenario_row scenario_row
              ltac:(lia) eq_refl eq_refl) as (b & Hb & _ & Hd).
  exists b; split; [exact Hb | exact Hd].
Defined.

(** ** The hit region is the beam pyramid *)

(** A matrix that commutes with the cross product (a rotation of
    determinant one). *)
Definition proper (M : mat3) : Prop :=
  forall a b : vec3,
    np.cross (np.matvec M a) (np.matvec M b) = np.matvec M (np.cross a b).

(** The pyramid of an event, in the frame of the gantry, with the apex at
    (0, DSI, 0) and the base rectangle FS_long by FS_lat at height -DID:
    at depth DSI - y under the apex, the half-widths are in proportion. *)
Definition in_pyramid (row : EventRow) (q : vec3) : Prop :=
  let '(x, y, z) := q in
  Rabs x * (DID row + DSI row) <= FS_long row / 2 * (DSI row - y) /\
  Rabs z * (DID row + DSI row) <= FS_lat row / 2 * (DSI row - y).

Lemma proper_matmul3 (A B : mat3) :
  proper A -> proper B -> proper (np.matmul3 A B).
Proof.
  intros HA HB a b; now rewrite !matvec_matmul3, HA, HB.
Qed.

Ltac proper_trig a :=
  let H := fresh in
  assert (H : cos a * cos a = 1 - sin a * sin a)
    by (pose proof (cos2_sin2_mul a); lra);
  intros [[? ?] ?] [[? ?] ?]; cbn; pair_eq; ring [H].

Lemma proper_R1T (ap1 : R) : proper (np.T3 (Beam.R1 ap1)).
Proof. proper_trig ap1. Qed.

Lemma proper_R2T (ap2 : R) : proper (np.T3 (Beam.R2 ap2)).
Proof. proper_trig ap2. Qed.

Lemma proper_R3T (ap3 : R) : proper (np.T3 (Beam.R3 ap3)).
Proof. proper_trig ap3. Qed.

Lemma proper_beam_transform (ap1 ap2 ap3 : R) :
  proper (beam_transform ap1 ap2 ap3).
Proof.
  unfold beam_transform; rewrite T3_matmul3.
  repeat apply proper_matmul3;
    [apply proper_R1T | apply proper_R2T | apply proper_R3T].
Qed.

Lemma proper_event_beam (ps : bool) (row : EventRow) :
  proper (event_beam_transform ps row).
Proof.
  unfold event_beam_transform.
  destruct (event_angles ps row) as [[ap1 ap2] ap3].
  apply proper_beam_transform.
Qed.

Lemma dot_matvec_r (M : mat3) (v w : vec3) :
  np.dot v (np.matvec M w) = np.dot (np.matvec (np.T3 M) v) w.
Proof. mat_eq. Qed.

Lemma rotation_inverse (M : mat3) (p : vec3) :
  rotation M -> np.matvec (np.T3 M) (np.matvec M p) = p.
Proof.
  intros [_ H]; unfold orthonormal in H; rewrite T3_involutive in H.
  now rewrite <- matvec_matmul3, H, matvec_I3.
Qed.

Lemma rotation_nonzero (M : mat3) (p : vec3) :
  rotation M -> p <> vzero -> np.matvec M p <> vzero.
Proof.
  intros HM Hp Hz; apply Hp, norm_zero_iff.
  rewrite <- (rotation_norm M p HM), Hz; now apply norm_zero_iff.
Qed.

(** One half-space test of a rotated beam, read in the gantry frame. *)
Lemma halfspace_unrotated (M : mat3) (p s c c' : vec3) :
  rotation M -> proper M -> c <> s -> c' <> s ->
  Rleb (np.dot (np.sub p (np.matvec M s))
               (np.cross
                  (normalize (np.sub (np.matvec M c) (np.matvec M s)))
                  (normalize (np.sub (np.matvec M c') (np.matvec M s))))) 0
  = Rleb (np.dot (np.sub (np.matvec (np.T3 M) p) s)
                 (np.cross (np.sub c s) (np.sub c' s))) 0.
Proof.
  intros HM HP Hc Hc'.
  rewrite <- !matvec_sub.
  rewrite halfspace_sign
    by (apply rotation_nonzero; auto; intros E;
        apply (proj1 (sub_zero_iff _ _)) in E; contradiction).
  now rewrite HP, dot_matvec_r, matvec_sub, rotation_inverse.
Qed.

Lemma built_N_map (ps : bool) (row row0 : EventRow) :
  Beam.N (built ps row row0)
  = let r := map (np.matvec (event_beam_transform ps row))
                 (source row :: corners row) in
    [np.cross (edge r 0) (edge r 1); np.cross (edge r 1) (edge r 2);
     np.cross (edge r 2) (edge r 3); np.cross (edge r 3) (edge r 0)].
Proof.
  unfold built, event_beam_transform.
  now destruct (event_angles ps row) as [[ap1 ap2] ap3].
Qed.

Lemma cone_pyramid (ps : bool) (row row0 : EventRow) (p : vec3) :
  0 < FS_long row -> 0 < FS_lat row -> 0 < DID row + DSI row ->
  cone (Beam.N (built ps row row0))
       (np.sub p (nth 0 (Beam.r (built ps row row0)) vzero)) = true
  <-> in_pyramid row (np.matvec (np.T3 (event_beam_transform ps row)) p).
Proof.
  intros Hlong Hlat Hh.
  pose proof (rotation_event_beam ps row) as HM.
  pose proof (proper_event_beam ps row) as HP.
  rewrite built_N_map, built_r_map.
  set (M := event_beam_transform ps row) in *.
  unfold cone, edge, corners, source; cbn [map nth forallb].
  rewrite !(halfspace_unrotated M p _ _ _ HM HP)
    by (intros E; injection E; intros; lra).
  destruct (np.matvec (np.T3 M) p) as [[x y] z].
  rewrite !andb_true_iff, !Rleb_true; cbn [np.sub np.dot np.cross in_pyramid].
  set (a := FS_long row) in *; set (b := FS_lat row) in *.
  set (h := DID row + DSI row) in *.
  assert (Hs : forall c X, 0 < c -> (c * X <= 0 <-> X <= 0))
    by (intros c X Hc; split; intros; nra).
  match goal with
  | |- ?A1 <= 0 /\ ?A2 <= 0 /\ ?A3 <= 0 /\ ?A4 <= 0 /\ _ <-> _ =>
      replace A1 with (b * (h * x - a / 2 * (DSI row - y))) by (unfold h; lra);
      replace A2 with (a * (- (h * z) - b / 2 * (DSI row - y)))
        by (unfold h; lra);
      replace A3 with (b * (- (h * x) - a / 2 * (DSI row - y)))
        by (unfold h; lra);
      replace A4 with (a * (h * z - b / 2 * (DSI row - y))) by (unfold h; lra)
  end.
  rewrite !Hs by assumption.
  assert (Hx : 0 <= Rabs x * h - x * h /\ 0 <= Rabs x * h + x * h).
  { unfold Rabs; destruct (Rcase_abs x); split; nra. }
  assert (Hz : 0 <= Rabs z * h - z * h /\ 0 <= Rabs z * h + z * h).
  { unfold Rabs; destruct (Rcase_abs z); split; nra. }
  assert (Hx' : Rabs x * h = x * h \/ Rabs x * h = - (x * h)).
  { unfold Rabs; destruct (Rcase_abs x); [right | left]; ring. }
  assert (Hz' : Rabs z * h = z * h \/ Rabs z * h = - (z * h)).
  { unfold Rabs; destruct (Rcase_abs z); [right | left]; ring. }
  split.
  - intros (H1 & H2 & H3 & H4 & _); split.
    + destruct Hx' as [-> | ->]; lra.
    + destruct Hz' as [-> | ->]; lra.
  - intros [H1 H2]; repeat split; lra.
Qed.



Lemma matvec_vzero (M : mat3) : np.matvec M vzero = vzero.
Proof. unfold vzero; mat_destruct; cbn; pair_eq; ring. Qed.

(** X9.  For every event in the table with positive collimation, a source
    at a non-negative distance from the isocenter and the detector plane
    beyond the source, and for all angles, a skin cell of a plane phantom
    at the isocenter (0, 0, 0) is hit. *)
Theorem isocenter_is_hit
  (d : DataFrame) (e : Z) (ps : bool) (row : EventRow) :
  (0 <= e)%Z -> nth_error d (Z.to_nat e) = Some row ->
  0 < FS_long row -> 0 < FS_lat row -> 0 <= DSI row ->
  0 < DID row + DSI row ->
  exists b,
    Beam.__init__ d e ps = Ok b /\
    Beam.check_hit b (Phantom.mk [(0, 0, 0)] [] "plane") = Ok [true].
Proof.
  intros He Hrow Hlong Hlat Hdsi Hh.
  destruct (in_range_row _ _ _ Hrow) as [row0 Hrow0].
  exists (built ps row row0); split; [now apply init_Ok|].
  pose proof (shape_apex _ (built_shape ps row row0)) as Ha.
  rewrite (check_hit_plane _ (Phantom.mk [(0, 0, 0)] [] "plane") _ Ha eq_refl).
  cbn [Phantom.r map]; do 2 f_equal.
  apply (cone_pyramid ps row row0 (0, 0, 0) Hlong Hlat Hh).
  change (0, 0, 0) with vzero; rewrite matvec_vzero.
  unfold vzero, in_pyramid; rewrite Rabs_R0; split; nra.
Qed.

Lemma isocenter_is_hit_witness :
  (0 <= 0)%Z /\
  nth_error [scenario_row] (Z.to_nat 0) = Some scenario_row /\
  0 < FS_long scenario_row /\ 0 < FS_lat scenario_row /\
  0 <= DSI scenario_row /\ 0 < DID scenario_row + DSI scenario_row /\
  exists b,
    Beam.__init__ [scenario_row] 0 false = Ok b /\
    Beam.check_hit b (Phantom.mk [(0, 0, 0)] [] "plane") = Ok [true].
Proof.
  assert (H1 : 0 < FS_long scenario_row) by (cbn; lra).
  assert (H2 : 0 < FS_lat scenario_row) by (cbn; lra).
  assert (H3 : 0 <= DSI scenario_row) by (cbn; lra).
  assert (H4 : 0 < DID scenario_row + DSI scenario_row) by (cbn; lra).
  split; [lia|]; split; [reflexivity|].
  split; [exact H1|]; split; [exact H2|]; split; [exact H3|]; split; [exact H4|].
  exact (isocenter_is_hit [scenario_row] 0 false scenario_row
           ltac:(lia) eq_refl H1 H2 H3 H4).
Defined.

(** * Further properties of the hit test *)

Lemma check_hit_no_apex (self : Beam.t) (patient : Phantom.t) :
  nth_error (Beam.r self) 0 = None ->
  Beam.check_hit self patient = Raise IndexError.
Proof. intros H; unfold Beam.check_hit, np.getrow; now rewrite H. Qed.

Lemma combine_app_same {A B : Type} (a1 a2 : list A) (b1 b2 : list B) :
  List.length a1 = List.length b1 ->
  combine (a1 ++ a2) (b1 ++ b2) = combine a1 b1 ++ combine a2 b2.
Proof.
  revert b1; induction a1 as [|x a1 IH]; intros [|y b1] H; try discriminate;
    [reflexivity|].
  cbn; injection H as H; now rewrite IH.
Qed.

(** A successful hit test on a phantom other than plane had one normal per
    skin cell. *)
Lemma check_hit_Ok_lengths (self : Beam.t) (patient : Phantom.t) (hits : list bool) :
  Beam.check_hit self patient = Ok hits ->
  Phantom.phantom_model patient <> "plane"%string ->
  List.length (Phantom.n patient) = List.length (Phantom.r patient).
Proof.
  intros H Hm.
  destruct (nth_error (Beam.r self) 0) as [apex|] eqn:Ha;
    [|rewrite check_hit_no_apex in H by exact Ha; discriminate].
  destruct (Nat.eq_dec (List.length (Phantom.n patient))
                       (List.length (Phantom.r patient))) as [Hl|Hl]; [exact Hl|].
  rewrite (check_hit_3d_mismatch _ _ _ Ha Hm Hl) in H; discriminate.
Qed.

(** X10.  Skin cells are tested independently of one another: when the hit
    test succeeds on two phantoms of the same kind, it succeeds on the
    phantom that holds the skin cells (and normals) of the first followed
    by those of the second, and returns the first result followed by the
    second. *)
Theorem check_hit_concat
  (self : Beam.t) (r1 n1 r2 n2 : list vec3) (m : string) (h1 h2 : list bool) :
  Beam.check_hit self (Phantom.mk r1 n1 m) = Ok h1 ->
  Beam.check_hit self (Phantom.mk r2 n2 m) = Ok h2 ->
  Beam.check_hit self (Phantom.mk (r1 ++ r2) (n1 ++ n2) m) = Ok (h1 ++ h2).
Proof.
  intros H1 H2.
  destruct (nth_error (Beam.r self) 0) as [apex|] eqn:Ha;
    [|rewrite check_hit_no_apex in H1 by exact Ha; discriminate].
  destruct (string_dec m "plane") as [Hm|Hm].
  - rewrite (check_hit_plane _ (Phantom.mk r1 n1 m) _ Ha Hm) in H1.
    rewrite (check_hit_plane _ (Phantom.mk r2 n2 m) _ Ha Hm) in H2.
    rewrite (check_hit_plane _ (Phantom.mk (r1 ++ r2) (n1 ++ n2) m) _ Ha Hm).
    cbn [Phantom.r] in *; injection H1 as <-; injection H2 as <-.
    now rewrite map_app.
  - pose proof (check_hit_Ok_lengths _ _ _ H1 Hm) as L1.
    pose proof (check_hit_Ok_lengths _ _ _ H2 Hm) as L2.
    cbn [Phantom.r Phantom.n] in L1, L2.
    rewrite (check_hit_3d _ (Phantom.mk r1 n1 m) _ Ha Hm L1) in H1.
    rewrite (check_hit_3d _ (Phantom.mk r2 n2 m) _ Ha Hm L2) in H2.
    rewrite (check_hit_3d _ (Phantom.mk (r1 ++ r2) (n1 ++ n2) m) _ Ha Hm)
      by (cbn [Phantom.r Phantom.n]; rewrite !length_app; lia).
    cbn [Phantom.r Phantom.n] in *; injection H1 as <-; injection H2 as <-.
    now rewrite combine_app_same, map_app by lia.
Qed.

Lemma check_hit_concat_witness :
  exists h1 h2,
    Beam.check_hit scenario_beam (Phantom.mk [(0, 0, 0)] [] "plane") = Ok h1 /\
    Beam.check_hit scenario_beam (Phantom.mk [(0, 0, 15)] [] "plane") = Ok h2 /\
    Beam.check_hit scenario_beam
      (Phantom.mk ([(0, 0, 0)] ++ [(0, 0, 15)]) ([] ++ []) "plane")
    = Ok (h1 ++ h2).
Proof.
  assert (Ha : nth_error (Beam.r scenario_beam) 0
               = Some (nth 0 (Beam.r scenario_beam) vzero)) by reflexivity.
  eexists; eexists.
  assert (H1 := check_hit_plane scenario_beam
                  (Phantom.mk [(0, 0, 0)] [] "plane") _ Ha eq_refl).
  assert (H2 := check_hit_plane scenario_beam
                  (Phantom.mk [(0, 0, 15)] [] "plane") _ Ha eq_refl).
  split; [exact H1|]; split; [exact H2|].
  exact (check_hit_concat scenario_beam _ _ _ _ _ _ _ H1 H2).
Defined.

Lemma scenario_isocenter_hit :
  Beam.check_hit scenario_beam (Phantom.mk [(0, 0, 0)] [(0, 1, 0)] "plane")
  = Ok [true].
Proof.
  rewrite (check_hit_plane scenario_beam
             (Phantom.mk [(0, 0, 0)] [(0, 1, 0)] "plane")
             (nth 0 (Beam.r scenario_beam) vzero) eq_refl eq_refl).
  cbn [Phantom.r map]; do 2 f_equal; unfold scenario_beam.
  apply (cone_pyramid false scenario_row scenario_row (0, 0, 0));
    try (cbn; lra).
  change (0, 0, 0) with vzero; rewrite matvec_vzero.
  unfold vzero, in_pyramid; rewrite Rabs_R0; cbn; split; lra.
Qed.

(** A point of the cone spanned from [apex] by [p] and [q]. *)
Definition cone_point (apex p q : vec3) (s t : R) : vec3 :=
  vadd apex (vadd (vscale s (np.sub p apex)) (vscale t (np.sub q apex))).

Lemma sub_cone_point (apex p q : vec3) (s t : R) :
  np.sub (cone_point apex p q s t) apex
  = vadd (vscale s (np.sub p apex)) (vscale t (np.sub q apex)).
Proof.
  destruct apex as [[a1 a2] a3], p as [[p1 p2] p3], q as [[q1 q2] q3].
  cbn; pair_eq; ring.
Qed.

Lemma dot_combination (v w n : vec3) (s t : R) :
  np.dot (vadd (vscale s v) (vscale t w)) n = s * np.dot v n + t * np.dot w n.
Proof.
  destruct v as [[v1 v2] v3], w as [[w1 w2] w3], n as [[n1 n2] n3].
  cbn; ring.
Qed.

Lemma Rleb_combination (v w n : vec3) (s t : R) :
  0 <= s -> 0 <= t ->
  Rleb (np.dot v n) 0 = true -> Rleb (np.dot w n) 0 = true ->
  Rleb (np.dot (vadd (vscale s v) (vscale t w)) n) 0 = true.
Proof.
  rewrite !Rleb_true, dot_combination; intros; nra.
Qed.

Lemma cone_combination (N : list vec3) (v w : vec3) (s t : R) :
  0 <= s -> 0 <= t -> cone N v = true -> cone N w = true ->
  cone N (vadd (vscale s v) (vscale t w)) = true.
Proof.
  unfold cone; rewrite !forallb_forall; intros Hs Ht Hv Hw n Hn.
  apply Rleb_combination; auto.
Qed.

(** X11.  The set of hit positions is a convex cone with its tip at the
    apex, without a far end: when two skin cells at [p] and [q] with the
    same normal are both hit, a skin cell with that normal at
    apex + s (p - apex) + t (q - apex) is hit for all s, t >= 0 (for a
    plane phantom the normals are not read). *)
Theorem hit_region_convex_cone
  (self : Beam.t) (apex p q nrm : vec3) (m : string) (s t : R) :
  nth_error (Beam.r self) 0 = Some apex ->
  0 <= s -> 0 <= t ->
  Beam.check_hit self (Phantom.mk [p] [nrm] m) = Ok [true] ->
  Beam.check_hit self (Phantom.mk [q] [nrm] m) = Ok [true] ->
  Beam.check_hit self (Phantom.mk [cone_point apex p q s t] [nrm] m) = Ok [true].
Proof.
  intros Ha Hs Ht Hp Hq.
  destruct (string_dec m "plane") as [Hm|Hm].
  - rewrite (check_hit_plane _ (Phantom.mk [p] [nrm] m) _ Ha Hm) in Hp.
    rewrite (check_hit_plane _ (Phantom.mk [q] [nrm] m) _ Ha Hm) in Hq.
    rewrite (check_hit_plane _ (Phantom.mk [cone_point apex p q s t] [nrm] m)
               _ Ha Hm).
    cbn [Phantom.r map] in *.
    injection Hp as Hp; injection Hq as Hq.
    rewrite sub_cone_point; do 2 f_equal; now apply cone_combination.
  - rewrite (check_hit_3d _ (Phantom.mk [p] [nrm] m) _ Ha Hm eq_refl) in Hp.
    rewrite (check_hit_3d _ (Phantom.mk [q] [nrm] m) _ Ha Hm eq_refl) in Hq.
    rewrite (check_hit_3d _ (Phantom.mk [cone_point apex p q s t] [nrm] m)
               _ Ha Hm eq_refl).
    cbn [Phantom.r Phantom.n combine map fst snd] in *.
    injection Hp as Hp; injection Hq as Hq.
    apply andb_true_iff in Hp, Hq; destruct Hp as [Hp Hp'], Hq as [Hq Hq'].
    rewrite sub_cone_point; do 2 f_equal; apply andb_true_iff; split.
    + now apply cone_combination.
    + now apply Rleb_combination.
Qed.

Lemma hit_region_convex_cone_witness :
  nth_error (Beam.r scenario_beam) 0
  = Some (nth 0 (Beam.r scenario_beam) vzero) /\
  0 <= 2 /\ 0 <= 0 /\
  Beam.check_hit scenario_beam (Phantom.mk [(0, 0, 0)] [(0, 1, 0)] "plane")
  = Ok [true] /\
  Beam.check_hit scenario_beam
    (Phantom.mk [cone_point (nth 0 (Beam.r scenario_beam) vzero)
                            (0, 0, 0) (0, 0, 0) 2 0] [(0, 1, 0)] "plane")
  = Ok [true].
Proof.
  assert (Ha : nth_error (Beam.r scenario_beam) 0
               = Some (nth 0 (Beam.r scenario_beam) vzero)) by reflexivity.
  assert (H2 : 0 <= 2) by lra.
  assert (H0 : 0 <= 0) by lra.
  assert (Hp : Beam.check_hit scenario_beam
                 (Phantom.mk [(0, 0, 0)] [(0, 1, 0)] "plane") = Ok [true]).
  { exact scenario_isocenter_hit. }
  split; [exact Ha|]; split; [exact H2|]; split; [exact H0|].
  split; [exact Hp|].
  exact (hit_region_convex_cone scenario_beam _ _ _ _ _ _ _ Ha H2 H0 Hp Hp).
Defined.

(** * The plotting meshes *)

(** Every triangle of a vertex index array refers to three different rows
    of an array with [n] rows. *)
Definition valid_triangles (n : nat) (ijk : list (Z * Z * Z)) : Prop :=
  Forall (fun t : Z * Z * Z =>
            let '(i, j, k) := t in
            (0 <= i < Z.of_nat n /\ 0 <= j < Z.of_nat n /\
             0 <= k < Z.of_nat n /\ i <> j /\ j <> k /\ i <> k)%Z)
         ijk.

(** X12.  For every event in the table the constructed object has five
    beam points, four face normals, eight detector points, six beam
    triangles and twelve detector triangles, and every triangle refers to
    three different existing points. *)
Theorem mesh_indices_valid
  (d : DataFrame) (e : Z) (ps : bool) (row : EventRow) :
  (0 <= e)%Z -> nth_error d (Z.to_nat e) = Some row ->
  exists b,
    Beam.__init__ d e ps = Ok b /\
    List.length (Beam.r b) = 5%nat /\ List.length (Beam.N b) = 4%nat /\
    List.length (Beam.det_r b) = 8%nat /\
    List.length (Beam.ijk b) = 6%nat /\ List.length (Beam.det_ijk b) = 12%nat /\
    valid_triangles (List.length (Beam.r b)) (Beam.ijk b) /\
    valid_triangles (List.length (Beam.det_r b)) (Beam.det_ijk b).
Proof.
  intros He Hrow; destruct (in_range_row _ _ _ Hrow) as [row0 Hrow0].
  exists (built ps row row0); split; [now apply init_Ok|].
  unfold built; destruct (event_angles ps row) as [[ap1 ap2] ap3].
  cbn [Beam.r Beam.N Beam.det_r Beam.ijk Beam.det_ijk].
  unfold det_corners, corners; cbn [map List.length].
  repeat split; unfold valid_triangles, beam_ijk, detector_ijk;
    repeat constructor; lia.
Qed.

Lemma mesh_indices_valid_witness :
  (0 <= 0)%Z /\
  nth_error [scenario_row] (Z.to_nat 0) = Some scenario_row /\
  exists b,
    Beam.__init__ [scenario_row] 0 false = Ok b /\
    valid_triangles (List.length (Beam.r b)) (Beam.ijk b) /\
    valid_triangles (List.length (Beam.det_r b)) (Beam.det_ijk b).
Proof.
  split; [lia|]; split; [reflexivity|].
  destruct (mesh_indices_valid [scenario_row] 0 false scenario_row
              ltac:(lia) eq_refl) as (b & Hb & _ & _ & _ & _ & _ & H1 & H2).
  exists b; split; [exact Hb|]; split; [exact H1 | exact H2].
Defined.

(** * The settings classes

    [settings_pyskindose.py] and the older [settings.py] turn a dictionary
    (or a JSON string) of settings into nested objects. *)

Module Py.

(** The exceptions these modules can raise; [KeyError] carries the missing
    key. *)
Inductive error : Type :=
| KeyError (key : string)
| TypeError
| AttributeError
| ValueError
| NotImplementedError.

(** A settings value: what [json.loads] can return. *)
#[warnings="-register-all"]
Inductive value : Type :=
| VNone
| VBool (b : bool)
| VInt (z : Z)
| VFloat (x : R)
| VStr (s : string)
| VList (l : list value)
| VDict (items : list (string * value)).

(** A dictionary with string keys, as the list of its items in insertion
    order.  A Python dictionary holds each key once; lookup takes the first
    item of a key, so on such lists it is the dictionary's lookup. *)
Definition dict : Type := list (string * value).

Definition M (A : Type) : Type := (error + A)%type.

Definition bind {A B : Type} (m : M A) (k : A -> M B) : M B :=
  match m with
  | inr a => k a
  | inl e => inl e
  end.

Fixpoint dict_get (d : dict) (k : string) : option value :=
  match d with
  | [] => None
  | (k', v) :: d' => if String.eqb k' k then Some v else dict_get d' k
  end.

(** [d[k] = v]: replace the value of an existing key, or append. *)
Fixpoint dict_set (d : dict) (k : string) (v : value) : dict :=
  match d with
  | [] => [(k, v)]
  | (k', v') :: d' =>
      if String.eqb k' k then (k', v) :: d' else (k', v') :: dict_set d' k v
  end.

(** [x[k]] with a string [k]: [KeyError] on a dictionary without the key,
    [TypeError] on anything that is not a dictionary. *)
Definition getitem (x : value) (k : string) : M value :=
  match x with
  | VDict d =>
      match dict_get d k with
      | Some v => inr v
      | None => inl (KeyError k)
      end
  | _ => inl TypeError
  end.

(** [x.keys()]: [AttributeError] on anything that is not a dictionary. *)
Definition keys (x : value) : M (list string) :=
  match x with
  | VDict d => inr (map fst d)
  | _ => inl AttributeError
  end.

(** [for k in ks: setattr(self, k, x[k])], on the attribute dictionary of
    [self].  Keys that name special attributes of a Python object (such as
    [__class__]) are outside the model. *)
Fixpoint setattr_each (x : value) (ks : list string) (self : dict) : M dict :=
  match ks with
  | [] => inr self
  | k :: ks' => bind (getitem x k) (fun v => setattr_each x ks' (dict_set self k v))
  end.

End Py.

Notation "x <-- m ;; k" := (Py.bind m (fun x => k))
  (at level 61, m at next level, right associativity).

(** The key names imported from [pyskindose.constants], a module that is
    not among the sources: they are parameters of the model. *)
Record Constants : Type := mkConstants {
  KEY_PARAM_MODE : string;
  KEY_PARAM_RDSR_FILENAME : string;
  KEY_PARAM_ESTIMATE_K_TAB : string;
  KEY_PARAM_K_TAB_VAL : string;
  KEY_PARAM_PHANTOM_MODEL : string;
  KEY_PARAM_HUMAN_MESH : string;
  OFFSET_LATERAL_KEY : string;
  OFFSET_VERTICAL_KEY : string;
  OFFSET_LONGITUDINAL_KEY : string
}.

(** ** [settings_pyskindose.py] *)

Module PhantomDimensions.

(** The instance holds whatever attributes the dictionary names. *)
Record t : Type := mk { attrs : Py.dict }.

Definition __init__ (ptm_dim : Py.value) : Py.M t :=
  ks <-- Py.keys ptm_dim ;;
  a <-- Py.setattr_each ptm_dim ks [] ;;
  inr (mk a).

End PhantomDimensions.

Module PatientOffset.

Record t : Type := mk { d_lat : Py.value; d_ver : Py.value; d_lon : Py.value }.

Definition __init__ (c : Constants) (offset : Py.value) : Py.M t :=
  d_lat <-- Py.getitem offset (OFFSET_LATERAL_KEY c) ;;
  d_ver <-- Py.getitem offset (OFFSET_VERTICAL_KEY c) ;;
  d_lon <-- Py.getitem offset (OFFSET_LONGITUDINAL_KEY c) ;;
  inr (mk d_lat d_ver d_lon).

End PatientOffset.

Module Plotsettings.

Record t : Type := mk { attrs : Py.dict }.

Definition __init__ (plt_dict : Py.value) : Py.M t :=
  ks <-- Py.keys plt_dict ;;
  a <-- Py.setattr_each plt_dict ks [] ;;
  inr (mk a).

End Plotsettings.

Module PhantomSettings.

Record t : Type := mk {
  model : Py.value;
  human_mesh : Py.value;
  patient_offset : PatientOffset.t;
  patient_orientation : Py.value;
  dimension : PhantomDimensions.t
}.

Definition __init__ (c : Constants) (ptm_dim : Py.value) : Py.M t :=
  model <-- Py.getitem ptm_dim (KEY_PARAM_PHANTOM_MODEL c) ;;
  human_mesh <-- Py.getitem ptm_dim (KEY_PARAM_HUMAN_MESH c) ;;
  offset <-- Py.getitem ptm_dim "patient_offset" ;;
  patient_offset <-- PatientOffset.__init__ c offset ;;
  patient_orientation <-- Py.getitem ptm_dim "patient_orientation" ;;
  dim <-- Py.getitem ptm_dim "dimension" ;;
  dimension <-- PhantomDimensions.__init__ dim ;;
  inr (mk model human_mesh patient_offset patient_orientation dimension).

End PhantomSettings.

Module PyskindoseSettings.

Record t : Type := mk {
  mode : Py.value;
  rdsr_filename : Py.value;
  estimate_k_tab : Py.value;
  k_tab_val : Py.value;
  phantom : PhantomSettings.t;
  plot : Plotsettings.t
}.

(** [json_loads] stands for [json.loads]. *)
Definition __init__ (json_loads : string -> Py.M Py.value) (c : Constants)
  (settings : Py.value) : Py.M t :=
  tmp <-- match settings with
          | Py.VStr s => json_loads s
          | _ => inr settings
          end ;;
  mode <-- Py.getitem tmp (KEY_PARAM_MODE c) ;;
  rdsr_filename <-- Py.getitem tmp (KEY_PARAM_RDSR_FILENAME c) ;;
  estimate_k_tab <-- Py.getitem tmp (KEY_PARAM_ESTIMATE_K_TAB c) ;;
  k_tab_val <-- Py.getitem tmp (KEY_PARAM_K_TAB_VAL c) ;;
  ph <-- Py.getitem tmp "phantom" ;;
  phantom <-- PhantomSettings.__init__ c ph ;;
  pl <-- Py.getitem tmp "plot" ;;
  plot <-- Plotsettings.__init__ pl ;;
  inr (mk mode rdsr_filename estimate_k_tab k_tab_val phantom plot).

End PyskindoseSettings.

(** ** [settings.py] *)

Module OldPhantomDimensions.

Record t : Type := mk {
  plane_length : Py.value;
  plane_width : Py.value;
  cylinder_length : Py.value;
  cylinder_radii_a : Py.value;
  cylinder_radii_b : Py.value;
  table_thickness : Py.value;
  table_length : Py.value;
  table_width : Py.value;
  pad_thickness : Py.value;
  pad_width : Py.value;
  pad_length : Py.value;
  units : Py.value
}.

(** [x != "cm"]. *)
Definition ne_cm (x : Py.value) : bool :=
  match x with
  | Py.VStr s => negb (String.eqb s "cm")
  | _ => true
  end.

Definition __init__ (ptm_dim : Py.value) : Py.M t :=
  plane_length <-- Py.getitem ptm_dim "plane_length" ;;
  plane_width <-- Py.getitem ptm_dim "plane_width" ;;
  cylinder_length <-- Py.getitem ptm_dim "cylinder_length" ;;
  cylinder_radii_a <-- Py.getitem ptm_dim "cylinder_radii_a" ;;
  cylinder_radii_b <-- Py.getitem ptm_dim "cylinder_radii_b" ;;
  table_thickness <-- Py.getitem ptm_dim "table_thickness" ;;
  table_length <-- Py.getitem ptm_dim "table_length" ;;
  table_width <-- Py.getitem ptm_dim "table_width" ;;
  pad_thickness <-- Py.getitem ptm_dim "pad_thickness" ;;
  pad_width <-- Py.getitem ptm_dim "pad_width" ;;
  pad_length <-- Py.getitem ptm_dim "pad_length" ;;
  units <-- Py.getitem ptm_dim "units" ;;
  if ne_cm units then inl Py.NotImplementedError
  else inr (mk plane_length plane_width cylinder_length cylinder_radii_a
               cylinder_radii_b table_thickness table_length table_width
               pad_thickness pad_width pad_length units).

End OldPhantomDimensions.

Module OldPhantomSettings.

Record t : Type := mk {
  model : Py.value;
  human_model : Py.value;
  dimension : OldPhantomDimensions.t
}.

Definition __init__ (ptm_dim : Py.value) : Py.M t :=
  model <-- Py.getitem ptm_dim "model" ;;
  human_model <-- Py.getitem ptm_dim "human_model" ;;
  dim <-- Py.getitem ptm_dim "dimension" ;;
  dimension <-- OldPhantomDimensions.__init__ dim ;;
  inr (mk model human_model dimension).

End OldPhantomSettings.

Module OldPyskindoseSettings.

Record t : Type := mk {
  mode : Py.value;
  rdsr_filename : Py.value;
  plot_event_index : Py.value;
  phantom : OldPhantomSettings.t
}.

Definition __init__ (json_loads : string -> Py.M Py.value)
  (settings : Py.value) : Py.M t :=
  tmp <-- match settings with
          | Py.VStr s => json_loads s
          | _ => inr settings
          end ;;
  mode <-- Py.getitem tmp "mode" ;;
  rdsr_filename <-- Py.getitem tmp "rdsr_filename" ;;
  plot_event_index <-- Py.getitem tmp "plot_event_index" ;;
  ph <-- Py.getitem tmp "phantom" ;;
  phantom <-- OldPhantomSettings.__init__ ph ;;
  inr (mk mode rdsr_filename plot_event_index phantom).

End OldPyskindoseSettings.

(** ** Dictionaries and the attribute loop *)










(** ** What the settings constructors accept *)



Lemma bind_inr {A B : Type} (m : Py.M A) (k : A -> Py.M B) (b : B) :
  Py.bind m k = inr b -> exists a, m = inr a /\ k a = inr b.
Proof. destruct m as [e|a]; cbn; [discriminate | intros H; now exists a]. Qed.







Tactic Notation "inv_bind" hyp(H) "as" ident(a) ident(E) :=
  apply bind_inr in H; destruct H as (a & E & H).











(** ** The older [settings.py] *)

(** The keys [PhantomDimensions] of [settings.py] reads, in the order of
    the source. *)
Definition old_dimension_keys : list string :=
  ["plane_length"; "plane_width"; "cylinder_length"; "cylinder_radii_a";
   "cylinder_radii_b"; "table_thickness"; "table_length"; "table_width";
   "pad_thickness"; "pad_width"; "pad_length"; "units"]%string.

(** The attributes of a constructed object are the entries of [x]. *)
Definition old_dimensions_read_back
  (x : Py.value) (o : OldPhantomDimensions.t) : Prop :=
  Py.getitem x "plane_length" = inr (OldPhantomDimensions.plane_length o) /\
  Py.getitem x "plane_width" = inr (OldPhantomDimensions.plane_width o) /\
  Py.getitem x "cylinder_length"
  = inr (OldPhantomDimensions.cylinder_length o) /\
  Py.getitem x "cylinder_radii_a"
  = inr (OldPhantomDimensions.cylinder_radii_a o) /\
  Py.getitem x "cylinder_radii_b"
  = inr (OldPhantomDimensions.cylinder_radii_b o) /\
  Py.getitem x "table_thickness"
  = inr (OldPhantomDimensions.table_thickness o) /\
  Py.getitem x "table_length" = inr (OldPhantomDimensions.table_length o) /\
  Py.getitem x "table_width" = inr (OldPhantomDimensions.table_width o) /\
  Py.getitem x "pad_thickness" = inr (OldPhantomDimensions.pad_thickness o) /\
  Py.getitem x "pad_width" = inr (OldPhantomDimensions.pad_width o) /\
  Py.getitem x "pad_length" = inr (OldPhantomDimensions.pad_length o) /\
  Py.getitem x "units" = inr (OldPhantomDimensions.units o).

Lemma ne_cm_false (u : Py.value) :
  OldPhantomDimensions.ne_cm u = false <-> u = Py.VStr "cm".
Proof.
  destruct u as [| | | |s| |]; cbn; try (split; discriminate).
  rewrite negb_false_iff, String.eqb_eq; split; [now intros -> | congruence].
Qed.

Ltac missing_key E :=
  split; [cbn; auto 20 | cbn [Py.getitem]; now rewrite E].

(** X16.  [PhantomDimensions] of [settings.py] has four outcomes.  It
    returns an object only when all twelve keys are present and the units
    are the string "cm", and then every attribute is its entry.  It raises
    [NotImplementedError] only when all twelve keys are present and the
    units are not "cm"; [KeyError] only for one of the twelve keys, absent
    from the dictionary (so a missing key is reported before the units are
    looked at); [TypeError] only when the argument is not a dictionary. *)
Theorem old_dimensions_outcome (x : Py.value) :
  match OldPhantomDimensions.__init__ x with
  | inr o =>
      OldPhantomDimensions.units o = Py.VStr "cm" /\
      old_dimensions_read_back x o
  | inl Py.NotImplementedError =>
      (forall k, In k old_dimension_keys -> exists v, Py.getitem x k = inr v) /\
      Py.getitem x "units" <> inr (Py.VStr "cm")
  | inl (Py.KeyError k) =>
      In k old_dimension_keys /\ Py.getitem x k = inl (Py.KeyError k)
  | inl Py.TypeError => forall k, Py.getitem x k = inl Py.TypeError
  | inl _ => False
  end.
Proof.
  destruct x as [| | | | | |d]; try (intros k; reflexivity).
  unfold OldPhantomDimensions.__init__; cbn [Py.getitem].
  destruct (Py.dict_get d "plane_length") as [v1|] eqn:E1; cbn [Py.bind];
    [|missing_key E1].
  destruct (Py.dict_get d "plane_width") as [v2|] eqn:E2; cbn [Py.bind];
    [|missing_key E2].
  destruct (Py.dict_get d "cylinder_length") as [v3|] eqn:E3; cbn [Py.bind];
    [|missing_key E3].
  destruct (Py.dict_get d "cylinder_radii_a") as [v4|] eqn:E4; cbn [Py.bind];
    [|missing_key E4].
  destruct (Py.dict_get d "cylinder_radii_b") as [v5|] eqn:E5; cbn [Py.bind];
    [|missing_key E5].
  destruct (Py.dict_get d "table_thickness") as [v6|] eqn:E6; cbn [Py.bind];
    [|missing_key E6].
  destruct (Py.dict_get d "table_length") as [v7|] eqn:E7; cbn [Py.bind];
    [|missing_key E7].
  destruct (Py.dict_get d "table_width") as [v8|] eqn:E8; cbn [Py.bind];
    [|missing_key E8].
  destruct (Py.dict_get d "pad_thickness") as [v9|] eqn:E9; cbn [Py.bind];
    [|missing_key E9].
  destruct (Py.dict_get d "pad_width") as [v10|] eqn:E10; cbn [Py.bind];
    [|missing_key E10].
  destruct (Py.dict_get d "pad_length") as [v11|] eqn:E11; cbn [Py.bind];
    [|missing_key E11].
  destruct (Py.dict_get d "units") as [u|] eqn:E12; cbn [Py.bind];
    [|missing_key E12].
  destruct (OldPhantomDimensions.ne_cm u) eqn:Eu.
  - split.
    + intros k Hk; unfold old_dimension_keys in Hk; cbn [In] in Hk.
      cbn [Py.getitem].
      repeat (destruct Hk as [<- | Hk];
              [match goal with
               | E : Py.dict_get d ?key = Some ?v
                 |- exists _, match Py.dict_get d ?key with _ => _ end = _ =>
                   exists v; now rewrite E
               end|]).
      contradiction.
    + cbn [Py.getitem]; rewrite ?E12; intros H; injection H as ->.
      discriminate Eu.
  - apply ne_cm_false in Eu; subst u; split; [reflexivity|].
    unfold old_dimensions_read_back; cbn [Py.getitem].
    rewrite ?E1, ?E2, ?E3, ?E4, ?E5, ?E6, ?E7, ?E8, ?E9, ?E10, ?E11, ?E12.
    cbn; repeat split.
Qed.

Lemma old_dimensions_inr_units (x : Py.value) (o : OldPhantomDimensions.t) :
  OldPhantomDimensions.__init__ x = inr o ->
  OldPhantomDimensions.units o = Py.VStr "cm" /\
  Py.getitem x "units" = inr (Py.VStr "cm").
Proof.
  intros H; unfold OldPhantomDimensions.__init__ in H.
  inv_bind H as v1 E1; inv_bind H as v2 E2; inv_bind H as v3 E3.
  inv_bind H as v4 E4; inv_bind H as v5 E5; inv_bind H as v6 E6.
  inv_bind H as v7 E7; inv_bind H as v8 E8; inv_bind H as v9 E9.
  inv_bind H as v10 E10; inv_bind H as v11 E11; inv_bind H as u Eu.
  destruct (OldPhantomDimensions.ne_cm u) eqn:Hu; [discriminate|].
  injection H as <-; apply ne_cm_false in Hu; subst u.
  split; [reflexivity | exact Eu].
Qed.

(** X17.  Every settings object that [PyskindoseSettings] of [settings.py]
    returns, from a dictionary or from a JSON string, has
    [phantom.dimension.units] equal to the string "cm", and its input
    names "cm" as the units of the phantom dimensions. *)
Theorem old_settings_units_cm
  (json_loads : string -> Py.M Py.value) (settings : Py.value)
  (s : OldPyskindoseSettings.t) :
  OldPyskindoseSettings.__init__ json_loads settings = inr s ->
  OldPhantomDimensions.units
    (OldPhantomSettings.dimension (OldPyskindoseSettings.phantom s))
  = Py.VStr "cm" /\
  exists tmp ph dim,
    (tmp = settings \/
     exists str, settings = Py.VStr str /\ json_loads str = inr tmp) /\
    Py.getitem tmp "phantom" = inr ph /\
    Py.getitem ph "dimension" = inr dim /\
    Py.getitem dim "units" = inr (Py.VStr "cm").
Proof.
  intros H; unfold OldPyskindoseSettings.__init__ in H.
  inv_bind H as tmp Etmp; inv_bind H as mode Emode; inv_bind H as rdsr Erdsr.
  inv_bind H as idx Eidx; inv_bind H as ph Eph; inv_bind H as phantom Ephantom.
  injection H as <-; cbn [OldPyskindoseSettings.phantom].
  unfold OldPhantomSettings.__init__ in Ephantom.
  inv_bind Ephantom as model Emodel; inv_bind Ephantom as hm Ehm.
  inv_bind Ephantom as dim Edim; inv_bind Ephantom as dimension Edimension.
  injection Ephantom as <-; cbn [OldPhantomSettings.dimension].
  destruct (old_dimensions_inr_units _ _ Edimension) as [Hu Hg].
  split; [exact Hu|].
  exists tmp, ph, dim; repeat split; auto.
  destruct settings as [| | | |str| |items];
    try (left; now injection Etmp as <-).
  right; now exists str.
Qed.

Definition example_old_settings : Py.value :=
  Py.VDict
    [("mode"%string, Py.VStr "plot_event");
     ("rdsr_filename"%string, Py.VStr "s1");
     ("plot_event_index"%string, Py.VInt 12);
     ("phantom"%string,
      Py.VDict
        [("model"%string, Py.VStr "cylinder");
         ("human_model"%string, Py.VStr "adult_male");
         ("dimension"%string,
          Py.VDict
            [("plane_length"%string, Py.VInt 120);
             ("plane_width"%string, Py.VInt 40);
             ("cylinder_length"%string, Py.VInt 150);
             ("cylinder_radii_a"%string, Py.VInt 20);
             ("cylinder_radii_b"%string, Py.VInt 10);
             ("table_thickness"%string, Py.VInt 5);
             ("table_length"%string, Py.VInt 210);
             ("table_width"%string, Py.VInt 50);
             ("pad_thickness"%string, Py.VInt 4);
             ("pad_width"%string, Py.VInt 45);
             ("pad_length"%string, Py.VInt 200);
             ("units"%string, Py.VStr "cm")])])].

Lemma old_settings_units_cm_witness :
  exists s,
    OldPyskindoseSettings.__init__ (fun _ => inl Py.ValueError)
      example_old_settings = inr s /\
    OldPhantomDimensions.units
      (OldPhantomSettings.dimension (OldPyskindoseSettings.phantom s))
    = Py.VStr "cm".
Proof.
  eexists; split; [reflexivity|].
  apply (old_settings_units_cm (fun _ => inl Py.ValueError)
           example_old_settings).
  reflexivity.
Defined.

(** * The index lists of [phantom_import.py]

    The script reads a triangle mesh ([mesh.x], [mesh.y], [mesh.z]: one row
    of three coordinates per triangle), flattens each coordinate array and
    builds with [np.arange] the three index lists it passes to the plot as
    [i], [j] and [k]. *)

Module PhantomImport.

Record Mesh : Type := mkMesh {
  x : list (list R);
  y : list (list R);
  z : list (list R)
}.

(** [[el for el_list in a for el in el_list]]. *)
Definition flatten (a : list (list R)) : list R := concat a.

(** [np.arange(start, stop, step)] on integers with a positive step:
    [start + i * step] for [i] below [ceil((stop - start) / step)]. *)
Definition arange (start stop step : Z) : list Z :=
  map (fun i => (start + Z.of_nat i * step)%Z)
      (seq 0 (Z.to_nat ((stop - start + step - 1) / step))).

Definition len {A : Type} (l : list A) : Z := Z.of_nat (List.length l).

(** [ilist], [jlist] and [klist]. *)
Definition index_lists (mesh : Mesh) : list Z * list Z * list Z :=
  let xlist := flatten (x mesh) in
  let ylist := flatten (y mesh) in
  let zlist := flatten (z mesh) in
  let ilist := arange 0 (len xlist - 3) 3 in
  let jlist := arange 1 (len ylist - 2) 3 in
  let klist := arange 2 (len zlist - 1) 3 in
  (ilist, jlist, klist).

End PhantomImport.

(** A coordinate array of [T] triangles: [T] rows of three entries. *)
Definition triangle_rows (T : nat) (a : list (list R)) : Prop :=
  List.length a = T /\ Forall (fun row => List.length row = 3%nat) a.

Lemma flatten_length (T : nat) (a : list (list R)) :
  triangle_rows T a -> PhantomImport.len (PhantomImport.flatten a) = (3 * Z.of_nat T)%Z.
Proof.
  intros [<- Hrows]; unfold PhantomImport.len, PhantomImport.flatten.
  induction Hrows as [|row a Hrow _ IH]; [reflexivity|].
  cbn [concat List.length]; rewrite length_app, Hrow; lia.
Qed.

Lemma arange_triangles (start : Z) (T : nat) :
  (0 <= start < 3)%Z ->
  PhantomImport.arange start (3 * Z.of_nat T - 3 + start) 3
  = map (fun m => (3 * Z.of_nat m + start)%Z) (seq 0 (T - 1)).
Proof.
  intros Hs; unfold PhantomImport.arange.
  replace (3 * Z.of_nat T - 3 + start - start + 3 - 1)%Z
    with (2 + (Z.of_nat T - 1) * 3)%Z by lia.
  rewrite Z.div_add by lia.
  replace (2 / 3)%Z with 0%Z by reflexivity.
  replace (Z.to_nat (0 + (Z.of_nat T - 1))) with (T - 1)%nat by lia.
  apply map_ext; intros m; lia.
Qed.

(** X18.  For a mesh of [T] triangles the script's three index lists each
    have [T - 1] entries (none when the mesh is empty), and their [m]-th
    entries are 3m, 3m + 1 and 3m + 2, the positions of the three corners
    of triangle [m] in the flattened coordinate lists: the triangles 0 to
    [T - 2] are indexed and the last triangle of the mesh is not. *)
Theorem index_lists_skip_last_triangle (mesh : PhantomImport.Mesh) (T : nat) :
  triangle_rows T (PhantomImport.x mesh) ->
  triangle_rows T (PhantomImport.y mesh) ->
  triangle_rows T (PhantomImport.z mesh) ->
  PhantomImport.index_lists mesh
  = (map (fun m => (3 * Z.of_nat m)%Z) (seq 0 (T - 1)),
     map (fun m => (3 * Z.of_nat m + 1)%Z) (seq 0 (T - 1)),
     map (fun m => (3 * Z.of_nat m + 2)%Z) (seq 0 (T - 1))).
Proof.
  intros Hx Hy Hz; unfold PhantomImport.index_lists.
  rewrite (flatten_length T _ Hx), (flatten_length T _ Hy),
    (flatten_length T _ Hz).
  pose proof (arange_triangles 0 T ltac:(lia)) as H0.
  pose proof (arange_triangles 1 T ltac:(lia)) as H1.
  pose proof (arange_triangles 2 T ltac:(lia)) as H2.
  replace (3 * Z.of_nat T - 3 + 0)%Z with (3 * Z.of_nat T - 3)%Z in H0 by lia.
  replace (3 * Z.of_nat T - 3 + 1)%Z with (3 * Z.of_nat T - 2)%Z in H1 by lia.
  replace (3 * Z.of_nat T - 3 + 2)%Z with (3 * Z.of_nat T - 1)%Z in H2 by lia.
  rewrite H0, H1, H2; do 2 f_equal.
  apply map_ext; intros m; lia.
Qed.

Definition example_mesh : PhantomImport.Mesh :=
  PhantomImport.mkMesh [[0; 1; 0]; [1; 1; 0]] [[0; 0; 1]; [0; 1; 1]]
                       [[0; 0; 0]; [0; 0; 0]].

Lemma index_lists_skip_last_triangle_witness :
  triangle_rows 2 (PhantomImport.x example_mesh) /\
  triangle_rows 2 (PhantomImport.y example_mesh) /\
  triangle_rows 2 (PhantomImport.z example_mesh) /\
  PhantomImport.index_lists example_mesh = ([0%Z], [1%Z], [2%Z]).
Proof.
  assert (H : forall a b : list R,
             List.length a = 3%nat -> List.length b = 3%nat ->
             triangle_rows 2 [a; b])
    by (intros a b Ha Hb; split; [reflexivity | repeat constructor; assumption]).
  assert (Hx := H [0; 1; 0] [1; 1; 0] eq_refl eq_refl).
  assert (Hy := H [0; 0; 1] [0; 1; 1] eq_refl eq_refl).
  assert (Hz := H [0; 0; 0] [0; 0; 0] eq_refl eq_refl).
  split; [exact Hx|]; split; [exact Hy|]; split; [exact Hz|].
  exact (index_lists_skip_last_triangle example_mesh 2 Hx Hy Hz).
Defined.

(** * The boundary of the hit region *)



